(** * PROJ.4 parameter codec of [rasterio._crs]

    A shallow embedding of [CRS.to_string], [CRS.from_string],
    [CRS.from_epsg], [CRS.is_epsg_code] and of the module-level
    vocabulary [all_proj_keys], followed by the properties of the codec.

    Python text is modelled by [string]; a character stands for the code
    point of the same number (0..255).  The Python builtins the module
    calls ([str.split], [str.strip], [sorted], [int], [str], ...) are
    modelled in [PyStr] and [PyInt]; the ones that cannot reasonably be
    written out here ([float], [str] of a float, [json.loads]) are
    operations of a runtime interface. *)

From Stdlib Require Import Bool List ZArith Lia Ascii String.
From Stdlib Require Decimal DecimalString DecimalZ.
From Stdlib Require Import Permutation Sorted SpecFloat.
Import ListNotations.
#[local] Set Warnings "-register-all".
Open Scope string_scope.

(** ** Python string builtins *)

Module PyStr.

(** [str.isspace] for one character: the ASCII blanks 9..13 and 32, the
    separators 28..31, and the two Latin-1 spaces 0x85 and 0xA0. *)
Definition is_space (c : ascii) : bool :=
  let n := nat_of_ascii c in
  (((9 <=? n) && (n <=? 13)) || ((28 <=? n) && (n <=? 32))
   || (n =? 133) || (n =? 160))%nat.

(** [s.lstrip()] *)
Fixpoint lstrip (s : string) : string :=
  match s with
  | String c s' => if is_space c then lstrip s' else s
  | EmptyString => EmptyString
  end.

(** [s.rstrip()] *)
Fixpoint rstrip (s : string) : string :=
  match s with
  | String c s' =>
      match rstrip s' with
      | EmptyString => if is_space c then EmptyString else String c EmptyString
      | r => String c r
      end
  | EmptyString => EmptyString
  end.

(** [s.strip()] *)
Definition strip (s : string) : string := rstrip (lstrip s).

(** [s.lstrip(c)] for a one-character argument. *)
Fixpoint lstrip_char (c : ascii) (s : string) : string :=
  match s with
  | String a s' => if Ascii.eqb a c then lstrip_char c s' else s
  | EmptyString => EmptyString
  end.

(** Does [s] begin with a blank, or is it empty?  Helper of [split]. *)
Definition at_break (s : string) : bool :=
  match s with
  | String c _ => is_space c
  | EmptyString => true
  end.

(** [s.split()]: the maximal runs of non-blank characters, in order. *)
Fixpoint split (s : string) : list string :=
  match s with
  | EmptyString => []
  | String c s' =>
      if is_space c then split s'
      else if at_break s' then String c EmptyString :: split s'
      else match split s' with
           | t :: ts => String c t :: ts
           | [] => [String c EmptyString]
           end
  end.

(** [s.split(sep)] for a one-character separator: empty pieces are kept,
    and the empty string gives one empty piece. *)
Fixpoint split_on (sep : ascii) (s : string) : list string :=
  match s with
  | EmptyString => [EmptyString]
  | String c s' =>
      if Ascii.eqb c sep then EmptyString :: split_on sep s'
      else match split_on sep s' with
           | t :: ts => String c t :: ts
           | [] => [String c EmptyString]
           end
  end.

(** [c in s] for a one-character [c]. *)
Fixpoint contains (c : ascii) (s : string) : bool :=
  match s with
  | EmptyString => false
  | String a s' => Ascii.eqb a c || contains c s'
  end.

(** [s.upper()] on the ASCII letters.  The only use is the prefix test
    against ["EPSG:"].  Of the characters above 127 only the sharp s
    upper-cases to ASCII, and to two letters [SS], which do not occur
    side by side in the prefix; so leaving these characters alone does
    not change that test. *)
Definition upper_char (c : ascii) : ascii :=
  let n := nat_of_ascii c in
  if ((97 <=? n) && (n <=? 122))%nat then ascii_of_nat (n - 32) else c.

Fixpoint upper (s : string) : string :=
  match s with
  | EmptyString => EmptyString
  | String c s' => String (upper_char c) (upper s')
  end.

(** [s.startswith(p)] *)
Fixpoint startswith (p s : string) : bool :=
  match p, s with
  | EmptyString, _ => true
  | String a p', String b s' => Ascii.eqb a b && startswith p' s'
  | String _ _, EmptyString => false
  end.

(** [sep.join(l)] *)
Definition join (sep : string) (l : list string) : string :=
  String.concat sep l.

(** [x in l] for a list of strings: comparison by [==], which on text is
    exact, case-sensitive equality. *)
Definition mem (x : string) (l : list string) : bool :=
  existsb (String.eqb x) l.

(** [list(set(l))]: the distinct elements of [l].  Python leaves the
    order of the result unspecified; the model keeps [nodup]'s. *)
Definition distinct (l : list string) : list string :=
  nodup string_dec l.

(** [s.lower()]: the ASCII capitals and the Latin-1 capitals 192..222
    (but the multiplication sign, 215) move up by 32. *)
Definition lower_char (c : ascii) : ascii :=
  let n := nat_of_ascii c in
  if (((65 <=? n) && (n <=? 90))
      || ((192 <=? n) && (n <=? 222) && negb (n =? 215)))%nat
  then ascii_of_nat (n + 32) else c.

Fixpoint lower (s : string) : string :=
  match s with
  | EmptyString => EmptyString
  | String c s' => String (lower_char c) (lower s')
  end.

End PyStr.

(** ** The parameter vocabulary *)

(** The table of PROJ.4 parameters, as in the module. *)
Definition _param_data : string :=
"
+a         Semimajor radius of the ellipsoid axis
+alpha     ? Used with Oblique Mercator and possibly a few others
+axis      Axis orientation (new in 4.8.0)
+b         Semiminor radius of the ellipsoid axis
+datum     Datum name (see `proj -ld`)
+ellps     Ellipsoid name (see `proj -le`)
+init      Initialize from a named CRS
+k         Scaling factor (old name)
+k_0       Scaling factor (new name)
+lat_0     Latitude of origin
+lat_1     Latitude of first standard parallel
+lat_2     Latitude of second standard parallel
+lat_ts    Latitude of true scale
+lon_0     Central meridian
+lonc      ? Longitude used with Oblique Mercator and possibly a few others
+lon_wrap  Center longitude to use for wrapping (see below)
+nadgrids  Filename of NTv2 grid file to use for datum transforms (see below)
+no_defs   Don't use the /usr/share/proj/proj_def.dat defaults file
+over      Allow longitude output outside -180 to 180 range, disables wrapping (see below)
+pm        Alternate prime meridian (typically a city name, see below)
+proj      Projection name (see `proj -l`)
+south     Denotes southern hemisphere UTM zone
+to_meter  Multiplier to convert map units to 1.0m
+towgs84   3 or 7 term datum transform parameters (see below)
+units     meters, US survey feet, etc.
+vto_meter vertical conversion to meters.
+vunits    vertical units.
+x_0       False easting
+y_0       False northing
+zone      UTM zone
+a         Semimajor radius of the ellipsoid axis
+alpha     ? Used with Oblique Mercator and possibly a few others
+azi
+b         Semiminor radius of the ellipsoid axis
+belgium
+beta
+czech
+e         Eccentricity of the ellipsoid = sqrt(1 - b^2/a^2) = sqrt( f*(2-f) )
+ellps     Ellipsoid name (see `proj -le`)
+es        Eccentricity of the ellipsoid squared
+f         Flattening of the ellipsoid (often presented as an inverse, e.g. 1/298)
+gamma
+geoc
+guam
+h
+k         Scaling factor (old name)
+K
+k_0       Scaling factor (new name)
+lat_0     Latitude of origin
+lat_1     Latitude of first standard parallel
+lat_2     Latitude of second standard parallel
+lat_b
+lat_t
+lat_ts    Latitude of true scale
+lon_0     Central meridian
+lon_1
+lon_2
+lonc      ? Longitude used with Oblique Mercator and possibly a few others
+lsat
+m
+M
+n
+no_cut
+no_off
+no_rot
+ns
+o_alpha
+o_lat_1
+o_lat_2
+o_lat_c
+o_lat_p
+o_lon_1
+o_lon_2
+o_lon_c
+o_lon_p
+o_proj
+over
+p
+path
+proj      Projection name (see `proj -l`)
+q
+R
+R_a
+R_A       Compute radius such that the area of the sphere is the same as the area of the ellipsoid
+rf        Reciprocal of the ellipsoid flattening term (e.g. 298)
+R_g
+R_h
+R_lat_a
+R_lat_g
+rot
+R_V
+s
+south     Denotes southern hemisphere UTM zone
+sym
+t
+theta
+tilt
+to_meter  Multiplier to convert map units to 1.0m
+units     meters, US survey feet, etc.
+vopt
+W
+westo
+x_0       False easting
+y_0       False northing
+zone      UTM zone
".

(** [_lines = filter(lambda x: len(x) > 1, _param_data.split("\n"))] *)
Definition _lines : list string :=
  filter (fun x => (1 <? String.length x)%nat)
         (PyStr.split_on "010"%char _param_data).

(** [line.split()[0].lstrip("+").strip()].  Indexing an empty token list
    raises [IndexError] in Python; [first_token] is [None] there. *)
Definition first_token (line : string) : option string :=
  match PyStr.split line with
  | t :: _ => Some t
  | [] => None
  end.

Definition key_of_line (line : string) : option string :=
  option_map (fun t => PyStr.strip (PyStr.lstrip_char "+"%char t))
             (first_token line).

(** The generator over [_lines]; [None] if some line has no token. *)
Fixpoint keys_of_lines (ls : list string) : option (list string) :=
  match ls with
  | [] => Some []
  | l :: ls' =>
      match key_of_line l, keys_of_lines ls' with
      | Some k, Some ks => Some (k :: ks)
      | _, _ => None
      end
  end.

(** [all_proj_keys = list(set(... for line in _lines)) + ['no_mayo']].
    The table has a token on every kept line ([keys_of_lines_table]
    below), so the [None] branch is not taken; the list is evaluated
    once, here. *)
Definition all_proj_keys : list string := Eval vm_compute in
  match keys_of_lines _lines with
  | Some ks => PyStr.distinct ks ++ ["no_mayo"]
  | None => []
  end.

(** [k in all_proj_keys] *)
Definition in_vocabulary (k : string) : bool := PyStr.mem k all_proj_keys.

(** ** Python integers: [int(s)] and [str(n)] *)

Module PyInt.

Definition is_digit (c : ascii) : bool :=
  let n := nat_of_ascii c in ((48 <=? n) && (n <=? 57))%nat.

(** The digits of an integer literal, underscores removed: one or more
    digits, with single underscores allowed between digits only. *)
Fixpoint digit_run (after_digit : bool) (s : string) : option string :=
  match s with
  | EmptyString => if after_digit then Some EmptyString else None
  | String c s' =>
      if is_digit c then option_map (String c) (digit_run true s')
      else if Ascii.eqb c "_"
           then (if after_digit then digit_run false s' else None)
           else None
  end.

Definition unsigned_literal (s : string) : option Z :=
  match digit_run false s with
  | Some ds => option_map Z.of_uint (DecimalString.NilEmpty.uint_of_string ds)
  | None => None
  end.

(** The blanks that [int] and [float] ignore around a literal: those of
    [str.isspace] but for the separators 28..31. *)
Definition is_blank (c : ascii) : bool :=
  let n := nat_of_ascii c in
  (((9 <=? n) && (n <=? 13)) || (n =? 32) || (n =? 133) || (n =? 160))%nat.

Fixpoint ltrim (s : string) : string :=
  match s with
  | String c s' => if is_blank c then ltrim s' else s
  | EmptyString => EmptyString
  end.

Fixpoint rtrim (s : string) : string :=
  match s with
  | String c s' =>
      match rtrim s' with
      | EmptyString => if is_blank c then EmptyString else String c EmptyString
      | r => String c r
      end
  | EmptyString => EmptyString
  end.

Definition trim (s : string) : string := rtrim (ltrim s).

(** [int(s)] in base 10: blanks around the literal are ignored, one sign
    is allowed, and the whole rest must be a literal.  [None] stands for
    [ValueError]. *)
Definition of_string (s : string) : option Z :=
  match trim s with
  | String c r =>
      if Ascii.eqb c "+" then unsigned_literal r
      else if Ascii.eqb c "-" then option_map Z.opp (unsigned_literal r)
      else unsigned_literal (String c r)
  | EmptyString => None
  end.

(** [str(n)] *)
Definition to_string (n : Z) : string :=
  DecimalString.NilZero.string_of_int (Z.to_int n).

End PyInt.

(** ** Values and the runtime interface *)

(** Floating-point numbers of the Python runtime: [float(s)] ([None] for
    [ValueError]), [str(x)], [x == 0] and [x == y]. *)
Class FloatOps := {
  float : Type;
  float_of_string : string -> option float;
  float_str : float -> string;
  float_is_zero : float -> bool;
  float_eqb : float -> float -> bool
}.

(** Python values that can be stored in a mapping or returned by
    [json.loads]. *)
Inductive value {F : FloatOps} : Type :=
| VNone
| VBool (b : bool)
| VInt (n : Z)
| VFloat (x : float)
| VStr (s : string)
| VList (l : list value)
| VDict (d : list (string * value)).

(** What [json.loads(s, strict=False)] does with a text: it returns the
    decoded value, or raises [json.JSONDecodeError], which is a
    [ValueError], or, for a text nested deeper than the interpreter's
    stack allows, [RecursionError], which is not. *)
Inductive loaded {F : FloatOps} : Type :=
| JsonValue (val : value)
| JsonDecodeError
| JsonRecursionError.

(** The remaining builtins: [json.loads(s, strict=False)] and [str] of
    [None], of a list and of a dict. *)
Class Builtins {F : FloatOps} := {
  json_loads : string -> loaded;
  other_str : value -> string
}.

(** The data of a [CRS]: the items of the mapping in iteration order.
    Keys of a mapping are pairwise distinct. *)
Definition crs {F : FloatOps} : Type := list (string * value).

Inductive exn : Type :=
| CRSError (msg : string)
| ValueError (msg : string)
| InvalidLiteral (s : string)   (* the [ValueError] raised by [int(s)] *)
| IndexError
| RecursionError.

Inductive result (A : Type) : Type :=
| Ok (a : A)
| Raise (e : exn).
Arguments Ok {A} a.
Arguments Raise {A} e.

(** What [from_string] returns: the value decoded from JSON, as it is, or
    a [CRS]. *)
Inductive decoded {F : FloatOps} : Type :=
| FromJson (v : value)
| Mapping (m : crs).

(** The argument of [from_epsg]: an integer, or text as [from_string]
    passes it. *)
Inductive epsg_code : Type :=
| IntCode (n : Z)
| TextCode (s : string).

Section Codec.
Context {F : FloatOps} {B : Builtins}.

(** Truth value of a Python object. *)
Definition truthy (v : value) : bool :=
  match v with
  | VNone => false
  | VBool b => b
  | VInt n => negb (n =? 0)%Z
  | VFloat x => negb (float_is_zero x)
  | VStr s => negb (String.eqb s EmptyString)
  | VList l => match l with [] => false | _ => true end
  | VDict d => match d with [] => false | _ => true end
  end.

(** [y == 0] *)
Definition eq_zero (v : value) : bool :=
  match v with
  | VBool b => negb b
  | VInt n => (n =? 0)%Z
  | VFloat x => float_is_zero x
  | _ => false
  end.

(** [y is True] *)
Definition is_True (v : value) : bool :=
  match v with VBool true => true | _ => false end.

(** [y is False] *)
Definition is_False (v : value) : bool :=
  match v with VBool false => true | _ => false end.

(** [isinstance(y, (bool, int, float)) or isinstance(y, string_types)] *)
Definition is_scalar (v : value) : bool :=
  match v with
  | VBool _ | VInt _ | VFloat _ | VStr _ => true
  | _ => false
  end.

(** [str(y)] *)
Definition py_str (v : value) : string :=
  match v with
  | VBool true => "True"
  | VBool false => "False"
  | VInt n => PyInt.to_string n
  | VFloat x => float_str x
  | VStr s => s
  | _ => other_str v
  end.

(** *** [CRS.to_string] *)

(** The outer [lambda x: ...] of [to_string]. *)
Definition keep_item (x : string * value) : bool :=
  in_vocabulary (fst x) && negb (is_False (snd x)) && is_scalar (snd x).

(** [sorted] on items.  Tuples are compared on their first components
    that differ; the keys of a mapping are pairwise distinct, so two of
    its items are ordered by their keys, as text. *)
Fixpoint insert_item (x : string * value) (l : list (string * value))
  : list (string * value) :=
  match l with
  | [] => [x]
  | y :: l' =>
      if String.leb (fst x) (fst y) then x :: l else y :: insert_item x l'
  end.

Fixpoint sorted (l : list (string * value)) : list (string * value) :=
  match l with
  | [] => []
  | x :: l' => insert_item x (sorted l')
  end.

(** The inner [lambda y: (y or y == 0) and y is not True]. *)
Definition keep_part (y : value) : bool :=
  (truthy y || eq_zero y) && negb (is_True y).

(** The string appended to [items] for one pair [(k, v)]. *)
Definition render (kv : string * value) : string :=
  "+" ++ PyStr.join "="
           (map py_str (filter keep_part [VStr (fst kv); snd kv])).

Definition to_string (self : crs) : string :=
  PyStr.join " " (map render (sorted (filter keep_item self))).

(** *** [CRS.from_epsg] *)

(** [int(code)] *)
Definition int_of_code (code : epsg_code) : result Z :=
  match code with
  | IntCode n => Ok n
  | TextCode s =>
      match PyInt.of_string s with
      | Some n => Ok n
      | None => Raise (InvalidLiteral s)
      end
  end.

(** ["%s" % code] *)
Definition code_str (code : epsg_code) : string :=
  match code with
  | IntCode n => PyInt.to_string n
  | TextCode s => s
  end.

Definition from_epsg (code : epsg_code) : result crs :=
  match int_of_code code with
  | Raise e => Raise e
  | Ok n =>
      if (n <=? 0)%Z then Raise (ValueError "EPSG codes are positive integers")
      else Ok [("init", VStr ("epsg:" ++ code_str code));
               ("no_defs", VBool true)]
  end.

(** *** [CRS.from_string] *)

(** The local function [parse]. *)
Definition parse (v : string) : value :=
  if String.eqb v "True" || String.eqb v "true" then VBool true
  else if String.eqb v "False" || String.eqb v "false" then VBool false
  else match PyInt.of_string v with
       | Some n => VInt n
       | None =>
           match float_of_string v with
           | Some x => VFloat x
           | None => VStr v
           end
       end.

(** [parts = [o.lstrip('+') for o in prjs.strip().split()]] *)
Definition parts (prjs : string) : list string :=
  map (PyStr.lstrip_char "+") (PyStr.split (PyStr.strip prjs)).

(** [lambda kv: len(kv) == 2 and (kv[0], parse(kv[1])) or (kv[0], True)]
    applied to [p.split('=')].  A pair is a true value, so the [or]
    branch is taken exactly when [len(kv) != 2]; [split] never returns an
    empty list. *)
Definition item_of_part (p : string) : string * value :=
  match PyStr.split_on "=" p with
  | [k; v] => (k, parse v)
  | k :: _ => (k, VBool true)
  | [] => (EmptyString, VBool true)
  end.

(** Assignment [d[k] = v] on the items of a mapping: a present key keeps
    its place and takes the new value, a new key goes last. *)
Fixpoint setitem (d : crs) (k : string) (v : value) : crs :=
  match d with
  | [] => [(k, v)]
  | (k', v') :: d' =>
      if String.eqb k' k then (k', v) :: d' else (k', v') :: setitem d' k v
  end.

(** [CRS(pairs)]: the pairs are assigned from left to right. *)
Definition CRS_of_pairs (pairs : list (string * value)) : crs :=
  fold_left (fun d kv => setitem d (fst kv) (snd kv)) pairs [].

(** The PROJ.4 branch: lines 109 to 135. *)
Definition from_proj4 (prjs : string) : result decoded :=
  let items := map item_of_part (parts prjs) in
  let out := CRS_of_pairs (filter (fun kv => in_vocabulary (fst kv)) items) in
  match out with
  | [] => Raise (CRSError ("crs is empty or invalid: " ++ prjs))
  | _ => Ok (Mapping out)
  end.

(** [prjs.split(':')[1]]; [None] stands for [IndexError]. *)
Definition second_piece (prjs : string) : option string :=
  nth_error (PyStr.split_on ":" prjs) 1.

Definition from_string (prjs : string) : result decoded :=
  if PyStr.contains "{" prjs then
    match json_loads prjs with
    | JsonDecodeError =>
        Raise (CRSError "crs appears to be JSON but is not valid")
    | JsonRecursionError => Raise RecursionError
    | JsonValue val =>
        if negb (truthy val) then Raise (CRSError "crs is empty JSON")
        else Ok (FromJson val)
    end
  else if PyStr.startswith "EPSG:" (PyStr.upper (PyStr.strip prjs)) then
    match second_piece prjs with
    | Some code =>
        match from_epsg (TextCode code) with
        | Ok m => Ok (Mapping m)
        | Raise e => Raise e
        end
    | None => Raise IndexError
    end
  else from_proj4 prjs.

End Codec.

(** ** A reference runtime

    An executable instance of the runtime interface, on which the codec
    can be evaluated: binary64 numbers ([spec_float]) read from decimal
    literals with correct rounding and printed as the shortest literal
    that reads back, in the layout of [repr]; and a reader for JSON. *)

Module Ref.

Definition prec : Z := 53.
Definition emax : Z := 1024.

(** The binary64 number nearest to [m * 10^e] (ties to even), with the
    given sign; [m] is a natural number. *)
Definition of_decimal (sign : bool) (m e : Z) : spec_float :=
  if (m <=? 0)%Z then S754_zero sign
  else if (0 <=? e)%Z then
    match (m * 10 ^ e)%Z with
    | Zpos p => binary_round prec emax sign p 0
    | _ => S754_zero sign
    end
  else
    let '(q, e2, l) := SFdiv_core_binary prec emax m 0 (10 ^ (- e))%Z 0 in
    binary_round_aux prec emax sign q e2 l.

(** The longest prefix of [s] made of characters satisfying [f], and
    the rest. *)
Fixpoint span (f : ascii -> bool) (s : string) : string * string :=
  match s with
  | String c s' =>
      if f c then let (a, b) := span f s' in (String c a, b)
      else (EmptyString, s)
  | EmptyString => (EmptyString, EmptyString)
  end.

(** The number written by a string of digits. *)
Definition digits_value (s : string) : Z :=
  match DecimalString.NilEmpty.uint_of_string s with
  | Some d => Z.of_uint d
  | None => 0
  end.

Definition all_digits (s : string) : bool :=
  String.eqb (snd (span PyInt.is_digit s)) EmptyString
  && negb (String.eqb s EmptyString).

(** Underscores of a float literal: each one between two digits. *)
Fixpoint drop_underscores (prev : ascii) (s : string) : option string :=
  match s with
  | EmptyString => if Ascii.eqb prev "_" then None else Some EmptyString
  | String c s' =>
      if Ascii.eqb c "_"
      then (if PyInt.is_digit prev then drop_underscores c s' else None)
      else if Ascii.eqb prev "_" && negb (PyInt.is_digit c) then None
      else option_map (String c) (drop_underscores c s')
  end.

(** The exponent written after the mantissa: nothing, or [e], an
    optional sign and digits. *)
Definition exponent_of (s : string) : option Z :=
  match s with
  | EmptyString => Some 0%Z
  | String c r =>
      if Ascii.eqb c "e" || Ascii.eqb c "E" then
        let '(neg, ds) :=
          match r with
          | String "-" d => (true, d)
          | String "+" d => (false, d)
          | _ => (false, r)
          end in
        if all_digits ds
        then Some (if neg then - digits_value ds else digits_value ds)%Z
        else None
      else None
  end.

Definition unsigned_float (sign : bool) (s : string) : option spec_float :=
  let u := PyStr.upper s in
  if String.eqb u "INF" || String.eqb u "INFINITY"
  then Some (S754_infinity sign)
  else if String.eqb u "NAN" then Some S754_nan
  else
    let (ip, r1) := span PyInt.is_digit s in
    let (fp, r2) :=
      match r1 with
      | String "." r => span PyInt.is_digit r
      | _ => (EmptyString, r1)
      end in
    if (String.length ip + String.length fp =? 0)%nat then None
    else match exponent_of r2 with
         | Some x =>
             Some (of_decimal sign (digits_value (ip ++ fp))
                              (x - Z.of_nat (String.length fp)))
         | None => None
         end.

(** [float(s)] *)
Definition float_of_string (s : string) : option spec_float :=
  match drop_underscores "000" (PyInt.trim s) with
  | None => None
  | Some t =>
      match t with
      | String "-" r => unsigned_float true r
      | String "+" r => unsigned_float false r
      | _ => unsigned_float false t
      end
  end.

(** [m * 2^e] as a fraction. *)
Definition ratio (m : positive) (e : Z) : Z * Z :=
  if (0 <=? e)%Z then (Zpos m * 2 ^ e, 1)%Z else (Zpos m, 2 ^ (- e))%Z.

(** The fraction [nd / 10^p]. *)
Definition scaled (nd : Z * Z) (p : Z) : Z * Z :=
  let (n, d) := nd in
  if (0 <=? p)%Z then (n, d * 10 ^ p)%Z else (n * 10 ^ (- p), d)%Z.

(** The largest [k] with [10^k <= nd]: searched upwards from a lower
    estimate taken from the bit lengths of the two terms. *)
Fixpoint log10_from (fuel : nat) (nd : Z * Z) (k : Z) : Z :=
  match fuel with
  | O => k
  | S f =>
      let (n, d) := scaled nd (k + 1) in
      if (d <=? n)%Z then log10_from f nd (k + 1) else k
  end.

Definition floor_log10 (nd : Z * Z) : Z :=
  let bits := (Z.log2 (fst nd) - Z.log2 (snd nd))%Z in
  log10_from 8 nd ((bits - 1) * 30103 / 100000 - 2)%Z.

Definition same_float (x y : spec_float) : bool :=
  match x, y with
  | S754_finite s m e, S754_finite s' m' e' =>
      Bool.eqb s s' && Pos.eqb m m' && Z.eqb e e'
  | _, _ => false
  end.

(** An [n]-digit decimal [c * 10^p] that reads back as [x], the nearer
    of the two neighbours of [x] first. *)
Definition candidate (x : spec_float) (nd : Z * Z) (k n : Z)
  : option (Z * Z) :=
  let p := (k - n + 1)%Z in
  let (N, D) := scaled nd p in
  let (q, r) := Z.div_eucl N D in
  let low_first := ((2 * r <? D) || ((2 * r =? D) && Z.even q))%Z in
  let c1 := if low_first then q else (q + 1)%Z in
  let c2 := if low_first then (q + 1)%Z else q in
  if same_float (of_decimal false c1 p) x then Some (c1, p)
  else if same_float (of_decimal false c2 p) x then Some (c2, p)
  else None.

Fixpoint shortest (fuel : nat) (x : spec_float) (nd : Z * Z) (k n : Z)
  : Z * Z :=
  match fuel with
  | O => (0, 0)%Z
  | S f =>
      match candidate x nd k n with
      | Some cp => cp
      | None => shortest f x nd k (n + 1)
      end
  end.

Fixpoint strip_zeros (fuel : nat) (c p : Z) : Z * Z :=
  match fuel with
  | O => (c, p)
  | S f =>
      if ((c mod 10 =? 0) && negb (c =? 0))%Z
      then strip_zeros f (c / 10)%Z (p + 1)%Z
      else (c, p)
  end.

Fixpoint zeros (n : nat) : string :=
  match n with
  | O => EmptyString
  | S n' => String "0" (zeros n')
  end.

(** Layout of [repr]: [digits] are the significant digits and the value
    is [0.digits * 10^decpt]. *)
Definition layout (digits : string) (decpt : Z) : string :=
  let n := Z.of_nat (String.length digits) in
  if ((decpt <=? -4) || (16 <? decpt))%Z then
    let e := (decpt - 1)%Z in
    let mant :=
      match digits with
      | String d EmptyString => digits
      | String d r => String d ("." ++ r)
      | EmptyString => EmptyString
      end in
    let es := PyInt.to_string (Z.abs e) in
    mant ++ "e" ++ (if (e <? 0)%Z then "-" else "+")
         ++ (if (String.length es <? 2)%nat then "0" ++ es else es)
  else if (decpt <=? 0)%Z then "0." ++ zeros (Z.to_nat (- decpt)) ++ digits
  else if (n <=? decpt)%Z then digits ++ zeros (Z.to_nat (decpt - n)) ++ ".0"
  else substring 0 (Z.to_nat decpt) digits ++ "."
       ++ substring (Z.to_nat decpt) (Z.to_nat (n - decpt)) digits.

(** [str(x)] *)
Definition float_str (x : spec_float) : string :=
  match x with
  | S754_nan => "nan"
  | S754_infinity s => if s then "-inf" else "inf"
  | S754_zero s => if s then "-0.0" else "0.0"
  | S754_finite s m e =>
      let a := S754_finite false m e in
      let nd := ratio m e in
      let '(c, p) := shortest 17 a nd (floor_log10 nd) 1 in
      let '(c, p) := strip_zeros 20 c p in
      let digits := PyInt.to_string c in
      (if s then "-" else EmptyString)
      ++ layout digits (Z.of_nat (String.length digits) + p)
  end.

Definition float_is_zero (x : spec_float) : bool :=
  match x with
  | S754_zero _ => true
  | _ => false
  end.

#[global] Instance float_ops : FloatOps :=
  Build_FloatOps spec_float float_of_string float_str float_is_zero
                 (SFeqb : spec_float -> spec_float -> bool).

(** *** [repr] of values, for [str] of [None], lists and dicts *)

Definition hex_digit (n : nat) : ascii :=
  ascii_of_nat (if (n <? 10)%nat then 48 + n else 87 + n).

(** Is the character shown as it is by [repr]? *)
Definition printable (c : ascii) : bool :=
  let n := nat_of_ascii c in
  (((32 <=? n) && (n <? 127)) || ((161 <=? n) && negb (n =? 173)))%nat.

Definition repr_char (quote : ascii) (c : ascii) : string :=
  if Ascii.eqb c quote || Ascii.eqb c "\" then String "\" (String c EmptyString)
  else if Ascii.eqb c "009" then "\t"
  else if Ascii.eqb c "010" then "\n"
  else if Ascii.eqb c "013" then "\r"
  else if printable c then String c EmptyString
  else let n := nat_of_ascii c in
       "\x" ++ String (hex_digit (n / 16))
                      (String (hex_digit (n mod 16)) EmptyString).

Fixpoint repr_chars (quote : ascii) (s : string) : string :=
  match s with
  | EmptyString => EmptyString
  | String c s' => repr_char quote c ++ repr_chars quote s'
  end.

Definition repr_str (s : string) : string :=
  let quote :=
    if PyStr.contains "'" s && negb (PyStr.contains "034" s)
    then "034"%char else "'"%char in
  String quote (repr_chars quote s) ++ String quote EmptyString.

Fixpoint repr (v : value) : string :=
  match v with
  | VNone => "None"
  | VBool true => "True"
  | VBool false => "False"
  | VInt n => PyInt.to_string n
  | VFloat x => float_str x
  | VStr s => repr_str s
  | VList l => "[" ++ PyStr.join ", " (map repr l) ++ "]"
  | VDict d =>
      "{" ++ PyStr.join ", "
               (map (fun kv : string * value =>
                       let (k, w) := kv in repr_str k ++ ": " ++ repr w) d)
          ++ "}"
  end.

(** *** [json.loads(s, strict=False)] *)

Definition json_space (c : ascii) : bool :=
  Ascii.eqb c " " || Ascii.eqb c "009" || Ascii.eqb c "010"
  || Ascii.eqb c "013".

Fixpoint skip_ws (s : string) : string :=
  match s with
  | String c s' => if json_space c then skip_ws s' else s
  | EmptyString => EmptyString
  end.

Definition hex_value (c : ascii) : option nat :=
  let n := nat_of_ascii c in
  if ((48 <=? n) && (n <=? 57))%nat then Some (n - 48)
  else if ((97 <=? n) && (n <=? 102))%nat then Some (n - 87)
  else if ((65 <=? n) && (n <=? 70))%nat then Some (n - 55)
  else None.

(** The escapes of one letter. *)
Definition escape (c : ascii) : option ascii :=
  if Ascii.eqb c "034" then Some "034"%char
  else if Ascii.eqb c "\" then Some "\"%char
  else if Ascii.eqb c "/" then Some "/"%char
  else if Ascii.eqb c "b" then Some "008"%char
  else if Ascii.eqb c "f" then Some "012"%char
  else if Ascii.eqb c "n" then Some "010"%char
  else if Ascii.eqb c "r" then Some "013"%char
  else if Ascii.eqb c "t" then Some "009"%char
  else None.

Definition cons_char (c : ascii) (r : option (string * string))
  : option (string * string) :=
  match r with
  | Some (t, rest) => Some (String c t, rest)
  | None => None
  end.

(** The text of a string literal whose opening quote has been read, and
    what follows its closing quote.  An escape [\uXXXX] is read when it
    names a character of the model (below 256). *)
Fixpoint read_string (s : string) : option (string * string) :=
  match s with
  | EmptyString => None
  | String c r =>
      if Ascii.eqb c "034" then Some (EmptyString, r)
      else if Ascii.eqb c "\" then
        match r with
        | String e r1 =>
            match escape e with
            | Some ch => cons_char ch (read_string r1)
            | None =>
                if Ascii.eqb e "u" then
                  match r1 with
                  | String h1 (String h2 (String h3 (String h4 r2))) =>
                      match hex_value h1, hex_value h2,
                            hex_value h3, hex_value h4 with
                      | Some 0, Some 0, Some a, Some b =>
                          cons_char (ascii_of_nat (16 * a + b)) (read_string r2)
                      | _, _, _, _ => None
                      end
                  | _ => None
                  end
                else None
            end
        | EmptyString => None
        end
      else cons_char c (read_string r)
  end.

(** A number: an optional minus sign, then a zero or a run of digits
    that does not start with a zero, then an optional fraction (a dot
    and one or more digits), then an optional exponent ([e] or [E], an
    optional sign, one or more digits); the longest match.  The result
    is an integer unless a fraction or an exponent is present. *)
Definition read_number (s : string) : option (value * string) :=
  let '(sign, r0) :=
    match s with
    | String "-" r => ("-", r)
    | _ => (EmptyString, s)
    end in
  let (ip, r1) :=
    match r0 with
    | String "0" r => ("0", r)
    | _ => span PyInt.is_digit r0
    end in
  if String.eqb ip EmptyString then None
  else
    let (fp, r2) :=
      match r1 with
      | String "." r =>
          let (ds, r') := span PyInt.is_digit r in
          if String.eqb ds EmptyString then (EmptyString, r1)
          else ("." ++ ds, r')
      | _ => (EmptyString, r1)
      end in
    let (ep, r3) :=
      match r2 with
      | String c r =>
          if Ascii.eqb c "e" || Ascii.eqb c "E" then
            let '(sg, r') :=
              match r with
              | String "-" t => ("-", t)
              | String "+" t => ("+", t)
              | _ => (EmptyString, r)
              end in
            let (ds, r'') := span PyInt.is_digit r' in
            if String.eqb ds EmptyString then (EmptyString, r2)
            else (String c (sg ++ ds), r'')
          else (EmptyString, r2)
      | EmptyString => (EmptyString, r2)
      end in
    if String.eqb (fp ++ ep) EmptyString then
      option_map (fun n => (VInt n, r3)) (PyInt.of_string (sign ++ ip))
    else
      option_map (fun x => (VFloat x, r3))
                 (float_of_string (sign ++ ip ++ fp ++ ep)).

(** [s] without the prefix [p], when it has it. *)
Fixpoint after (p s : string) : option string :=
  match p, s with
  | EmptyString, _ => Some s
  | String a p', String b s' => if Ascii.eqb a b then after p' s' else None
  | _, _ => None
  end.

Definition read_word (w : string) (v : value) (s : string)
  : option (value * string) :=
  option_map (fun r => (v, r)) (after w s).

Definition or_else {A} (a b : option A) : option A :=
  match a with
  | Some _ => a
  | None => b
  end.

(** The outcome of reading a piece of JSON at the head of a text: what
    was read and the rest of the text, a syntax error, or a bracket
    nested deeper than the limit. *)
Inductive reading (A : Type) : Type :=
| Read (a : A) (rest : string)
| Malformed
| TooDeep.
Arguments Read {A} a rest.
Arguments Malformed {A}.
Arguments TooDeep {A}.

Definition of_option {A} (o : option (A * string)) : reading A :=
  match o with
  | Some (a, r) => Read a r
  | None => Malformed
  end.

Definition map_reading {A B} (f : A -> B) (x : reading A) : reading B :=
  match x with
  | Read a r => Read (f a) r
  | Malformed => Malformed
  | TooDeep => TooDeep
  end.

(** A syntax error met with [depth] brackets left to open.  But for a
    missing value, which is reported from the top, the decoder builds
    its exception where it finds the error, and that takes three frames
    of the stack, where an opening bracket takes one. *)
Definition errmsg {A} (depth : nat) : reading A :=
  if (depth <? 3)%nat then TooDeep else Malformed.

(** One JSON value at the head of [s], and the rest of [s].
    [read_items] reads the elements of an array after its bracket or a
    comma, [read_members] the members of an object likewise.  [depth]
    is the number of brackets that may still be opened: the decoder
    checks the stack at every opening bracket or brace, before it looks
    at what follows. *)
Fixpoint read_value (fuel depth : nat) (s : string) : reading value :=
  match fuel with
  | O => Malformed
  | S f =>
      match s with
      | String "034" r =>
          match read_string r with
          | Some (t, r') => Read (VStr t) r'
          | None => errmsg depth
          end
      | String "{" r =>
          match depth with
          | O => TooDeep
          | S d =>
              match skip_ws r with
              | String "}" r' => Read (VDict []) r'
              | r' => map_reading (fun ms => VDict (CRS_of_pairs ms))
                                  (read_members f d r')
              end
          end
      | String "[" r =>
          match depth with
          | O => TooDeep
          | S d =>
              match skip_ws r with
              | String "]" r' => Read (VList []) r'
              | r' => map_reading (fun l => VList l) (read_items f d r')
              end
          end
      | _ =>
          of_option
         (or_else (read_word "null" VNone s)
         (or_else (read_word "true" (VBool true) s)
         (or_else (read_word "false" (VBool false) s)
         (or_else (read_number s)
         (or_else (read_word "NaN" (VFloat S754_nan) s)
         (or_else (read_word "Infinity" (VFloat (S754_infinity false)) s)
                  (read_word "-Infinity" (VFloat (S754_infinity true)) s)))))))
      end
  end

with read_items (fuel depth : nat) (s : string) : reading (list value) :=
  match fuel with
  | O => Malformed
  | S f =>
      match read_value f depth s with
      | Read v r =>
          match skip_ws r with
          | String "]" r' => Read [v] r'
          | String "," r' =>
              map_reading (cons v) (read_items f depth (skip_ws r'))
          | _ => errmsg depth
          end
      | Malformed => Malformed
      | TooDeep => TooDeep
      end
  end

with read_members (fuel depth : nat) (s : string)
  : reading (list (string * value)) :=
  match fuel with
  | O => Malformed
  | S f =>
      match s with
      | String "034" r =>
          match read_string r with
          | Some (k, r1) =>
              match skip_ws r1 with
              | String ":" r2 =>
                  match read_value f depth (skip_ws r2) with
                  | Read v r3 =>
                      match skip_ws r3 with
                      | String "}" r' => Read [(k, v)] r'
                      | String "," r' =>
                          map_reading (cons (k, v))
                                      (read_members f depth (skip_ws r'))
                      | _ => errmsg depth
                      end
                  | Malformed => Malformed
                  | TooDeep => TooDeep
                  end
              | _ => errmsg depth
              end
          | None => errmsg depth
          end
      | _ => errmsg depth
      end
  end.

(** The brackets and braces that may be open at once in CPython 3.11:
    the default recursion limit of 1000, less the frames in use when
    [json.loads] is called from a function called at module level. *)
Definition max_nesting : nat := 994.

(** [json.loads(s, strict=False)]: one value, blanks around it allowed,
    nothing else.  The fuel is enough for every text: of two nested
    calls of the reader, one consumes a character.  A bracket nested
    deeper than [max_nesting] gives [RecursionError], whatever follows
    it. *)
Definition json_loads (s : string) : loaded :=
  match read_value (S (2 * String.length s)) max_nesting (skip_ws s) with
  | Read v r =>
      if String.eqb (skip_ws r) EmptyString then JsonValue v
      else JsonDecodeError
  | Malformed => JsonDecodeError
  | TooDeep => JsonRecursionError
  end.

(** [str] of the values that are neither numbers nor text. *)
Definition other_str (v : value) : string := repr v.

#[global] Instance builtins : Builtins :=
  Build_Builtins float_ops json_loads other_str.

End Ref.

(** ** The statements of the specification, as definitions *)

(** A line without any visible character. *)
Definition blank (line : string) : bool :=
  String.eqb (PyStr.strip line) EmptyString.

(** Number of occurrences of a character. *)
Fixpoint count_char (c : ascii) (s : string) : nat :=
  match s with
  | EmptyString => 0
  | String a s' => (if Ascii.eqb a c then 1 else 0) + count_char c s'
  end.

(** The part of [s] before the first [c] and the part after it, when
    [c] occurs. *)
Fixpoint split_first (c : ascii) (s : string) : option (string * string) :=
  match s with
  | EmptyString => None
  | String a s' =>
      if Ascii.eqb a c then Some (EmptyString, s')
      else match split_first c s' with
           | Some (l, r) => Some (String a l, r)
           | None => None
           end
  end.

(** Do all the characters of [s] satisfy [f]? *)
Fixpoint all_chars (f : ascii -> bool) (s : string) : bool :=
  match s with
  | EmptyString => true
  | String c s' => f c && all_chars f s'
  end.

(** Text without blanks. *)
Definition no_space (s : string) : bool :=
  all_chars (fun c => negb (PyStr.is_space c)) s.

(** The shape of an integer literal: once trimmed, an optional sign
    followed by one or more characters, all of them digits or
    underscores. *)
Definition int_literal (v : string) : bool :=
  match PyInt.trim v with
  | String c r =>
      let body := if Ascii.eqb c "+" || Ascii.eqb c "-" then r
                  else String c r in
      negb (String.eqb body EmptyString)
      && all_chars (fun a => PyInt.is_digit a || Ascii.eqb a "_") body
  | EmptyString => false
  end.



(** [n] opening brackets before [s], and a text with a brace behind more
    brackets than the reference decoder opens. *)
Fixpoint brackets (n : nat) (s : string) : string :=
  match n with
  | O => s
  | S n' => String "[" (brackets n' s)
  end.

Definition deep_example : string := brackets (S Ref.max_nesting) "{".

(** Text made of decimal digits only. *)
Fixpoint digits_only (s : string) : bool :=
  match s with
  | EmptyString => true
  | String c s' => PyInt.is_digit c && digits_only s'
  end.

(** The decimal digits of a positive number. *)
Definition digits_of (p : positive) : string :=
  DecimalString.NilEmpty.string_of_uint (Pos.to_uint p).

(** The keys [l] in first-seen order, each once, those already [seen]
    left out. *)
Fixpoint first_seen (seen : list string) (l : list string) : list string :=
  match l with
  | [] => []
  | k :: l' =>
      if PyStr.mem k seen then first_seen seen l'
      else k :: first_seen (seen ++ [k]) l'
  end.

(** A character that ends or splits a token of a PROJ.4 string, or
    that sends the string to the JSON branch. *)
Definition breaks_token (c : ascii) : bool :=
  PyStr.is_space c || Ascii.eqb c "=" || Ascii.eqb c "{".

(** Text without any such character. *)
Definition token_text (s : string) : bool :=
  all_chars (fun c => negb (breaks_token c)) s.

(** Text without blanks and braces. *)
Definition plain_text (s : string) : bool :=
  all_chars (fun c => negb (PyStr.is_space c) && negb (Ascii.eqb c "{")) s.

(** Text that can stand as a key in a PROJ.4 string: not empty, one
    token, no [+] in front. *)
Definition key_text (k : string) : bool :=
  negb (String.eqb k EmptyString) && token_text k
  && negb (PyStr.startswith "+" k).

(** The errors that stand for the specification's [InvalidEPSGCode]. *)
Definition is_ValueError (e : exn) : bool :=
  match e with
  | ValueError _ | InvalidLiteral _ => true
  | _ => false
  end.

Section Statements.
Context {F : FloatOps} {B : Builtins}.

Definition keys (m : crs) : list string := map fst m.

(** Value of the last pair of [l] with key [k]. *)
Definition last_value (k : string) (l : list (string * value)) : option value :=
  option_map snd (find (fun kv => String.eqb (fst kv) k) (rev l)).

(** Value stored under [k]. *)
Definition lookup (k : string) (m : crs) : option value :=
  option_map snd (find (fun kv => String.eqb (fst kv) k) m).

(** Encode, as specified: which entries are kept ... *)
Definition keep_spec (kv : string * value) : bool :=
  in_vocabulary (fst kv)
  && match snd kv with
     | VBool b => b
     | VInt _ | VFloat _ | VStr _ => true
     | _ => false
     end.

(** ... and how a kept entry is written: bare for [True], with its
    value otherwise. *)
Definition token_spec (kv : string * value) : string :=
  match snd kv with
  | VBool true => "+" ++ fst kv
  | v => "+" ++ fst kv ++ "=" ++ py_str v
  end.

(** The same, with the empty text written bare as well. *)
Definition token_amended (kv : string * value) : string :=
  match snd kv with
  | VBool true | VStr EmptyString => "+" ++ fst kv
  | v => "+" ++ fst kv ++ "=" ++ py_str v
  end.

(** Strict order of two entries by key. *)
Definition key_lt (a b : string * value) : Prop :=
  String.ltb (fst a) (fst b) = true.

(** [out] is an encoding of [m] with tokens written by [token]: the
    tokens of the kept entries, in increasing order of their keys,
    joined by single spaces. *)
Definition encodes_as (token : string * value -> string) (m : crs)
  (out : string) : Prop :=
  exists l, Permutation l (filter keep_spec m) /\
            StronglySorted key_lt l /\
            out = PyStr.join " " (map token l).

(** Decode of one token, as specified: split on the first [=]. *)
Definition item_spec (p : string) : string * value :=
  match split_first "=" p with
  | Some (k, v) => (k, parse v)
  | None => (p, VBool true)
  end.

(** The PROJ.4 branch of decode with [item_spec] for the tokens. *)
Definition from_proj4_spec (prjs : string) : result decoded :=
  let items := map item_spec (parts prjs) in
  let out := CRS_of_pairs (filter (fun kv => in_vocabulary (fst kv)) items) in
  match out with
  | [] => Raise (CRSError ("crs is empty or invalid: " ++ prjs))
  | _ => Ok (Mapping out)
  end.

(** The EPSG branch of decode, as specified: what follows the first
    colon goes to [from_epsg]. *)
Definition from_epsg_text_spec (prjs : string) : result decoded :=
  match split_first ":" prjs with
  | Some (_, code) =>
      match from_epsg (TextCode code) with
      | Ok m => Ok (Mapping m)
      | Raise e => Raise e
      end
  | None => Raise IndexError
  end.

(** The mappings of the round-trip property as specified: vocabulary
    keys, values that are booleans, integers, floats or text, none of
    them [False]. *)
Definition canonical (m : crs) : Prop :=
  NoDup (keys m) /\
  Forall (fun kv => in_vocabulary (fst kv) = true /\
                    is_scalar (snd kv) = true /\
                    is_False (snd kv) = false) m.

(** The values that decode reads back from what encode writes: [True],
    integers, and the floats and the non-empty texts whose written form
    is one token that the scalar-typing rule reads as the same value. *)
Definition stable (v : value) : Prop :=
  match v with
  | VBool b => b = true
  | VInt _ => True
  | VFloat x =>
      token_text (float_str x) = true /\ parse (float_str x) = VFloat x /\
      float_eqb x x = true
  | VStr s =>
      s <> EmptyString /\ token_text s = true /\ parse s = VStr s
  | _ => False
  end.

(** Equality of two values as Python's [==] sees it on values of the
    same type: floats are compared as numbers (a NaN differs from
    itself), the others are equal when they are the same. *)
Definition same_value (v w : value) : Prop :=
  match v, w with
  | VFloat x, VFloat y => float_eqb x y = true
  | _, _ => v = w
  end.

(** Two mappings with the same keys and equal values, in any order. *)
Definition same_items (m' m : crs) : Prop :=
  exists l, Permutation m' l /\
            Forall2 (fun a b => fst a = fst b /\
                                same_value (snd a) (snd b)) l m.

(** Decoding the encoding of [m] gives a mapping equal to [m]. *)
Definition round_trips (m : crs) : Prop :=
  exists m', from_string (to_string m) = Ok (Mapping m') /\ same_items m' m.

(** The entries on which the round trip is proved. *)
Definition ready (kv : string * value) : Prop :=
  in_vocabulary (fst kv) = true /\ stable (snd kv).

(** What an entry is written as, after the [+]. *)
Definition body (kv : string * value) : string :=
  match snd kv with
  | VBool true | VStr EmptyString => fst kv
  | v => fst kv ++ "=" ++ py_str v
  end.

End Statements.

(** Mappings with vocabulary keys and scalar values, none [False], that
    do not survive the round trip: the empty mapping; the empty text;
    text that reads as a number, or as a boolean; text with a blank,
    with [=], with a brace; the float NaN. *)
Definition failing_mappings : list (crs (F := Ref.float_ops)) :=
  [ [];
    [("proj", VStr EmptyString)];
    [("ellps", VStr "12")];
    [("datum", VStr "true")];
    [("proj", VStr "a b")];
    [("proj", VStr "a=b")];
    [("proj", VStr "{")];
    [("lat_0", VFloat S754_nan)] ].

(** A mapping with entries that [to_string] leaves out, and the mapping
    of a key to the empty text. *)
Definition mixed_example : crs (F := Ref.float_ops) :=
  [("zone", VInt 10); ("proj", VStr "utm"); ("no_defs", VBool true);
   ("lat_0", VFloat (S754_finite false 6403555720167424 (-47)));
   ("bogus", VInt 1); ("south", VBool false); ("a", VStr EmptyString);
   ("units", VNone)].

Definition empty_text_example : crs (F := Ref.float_ops) :=
  [("proj", VStr EmptyString)].

(** A mapping on which the round trip holds. *)
Definition utm_example : crs (F := Ref.float_ops) :=
  [("zone", VInt 10); ("proj", VStr "utm"); ("no_defs", VBool true);
   ("towgs84", VStr "0,0,0"); ("k", VInt (-1));
   ("lat_0", VFloat (S754_finite false 6403555720167424 (-47)))].


(** ** The container query [CRS.is_epsg_code] *)

Section Container.
Context {F : FloatOps}.

(** [isinstance(val, string_types) and val.lower().startswith('epsg')] *)
Definition is_epsg_text (val : value) : bool :=
  match val with
  | VStr s => PyStr.startswith "epsg" (PyStr.lower s)
  | _ => false
  end.

(** The loop over [self.values()], which returns at the first hit. *)
Fixpoint is_epsg_code (self : crs) : bool :=
  match self with
  | [] => false
  | (_, val) :: rest => if is_epsg_text val then true else is_epsg_code rest
  end.

End Container.

(** * Properties *)

(** ** The vocabulary *)

Lemma mem_In (x : string) (l : list string) :
  PyStr.mem x l = true <-> In x l.
Proof.
  unfold PyStr.mem. rewrite existsb_exists. split.
  - intros [y [Hy He]]. apply String.eqb_eq in He. now subst.
  - intros H. exists x. split; [assumption | apply String.eqb_refl].
Qed.

Lemma mem_false (x : string) (l : list string) :
  PyStr.mem x l = false <-> ~ In x l.
Proof.
  rewrite <- mem_In. destruct (PyStr.mem x l); split; congruence.
Qed.

Lemma keys_of_lines_In (ls ks : list string) :
  keys_of_lines ls = Some ks ->
  forall k, In k ks <-> exists line, In line ls /\ key_of_line line = Some k.
Proof.
  revert ks. induction ls as [| l ls IH]; simpl; intros ks H k.
  - injection H as <-. split; [intros [] | intros [? [[] _]]].
  - destruct (key_of_line l) as [k0|] eqn:Hk; [| discriminate].
    destruct (keys_of_lines ls) as [ks0|]; [| discriminate].
    injection H as <-. simpl. rewrite (IH ks0 eq_refl k). split.
    + intros [<- | [line [Hin Hl]]].
      * exists l. auto.
      * exists line. auto.
    + intros [line [[<- | Hin] Hl]].
      * left. congruence.
      * right. exists line. auto.
Qed.

(** On every line kept by [_lines] the generator finds a token, and
    [all_proj_keys] is the list built from these tokens. *)
Lemma keys_of_lines_table :
  exists ks, keys_of_lines _lines = Some ks /\
             all_proj_keys = (PyStr.distinct ks ++ ["no_mayo"])%list.
Proof. vm_compute. eexists. split; reflexivity. Qed.

(** The lines longer than one character are the non-blank lines of the
    table. *)
Lemma _lines_non_blank :
  _lines = filter (fun l => negb (blank l))
                  (PyStr.split_on "010" _param_data).
Proof. vm_compute. reflexivity. Qed.

Lemma all_proj_keys_NoDup : NoDup all_proj_keys.
Proof.
  assert (E : nodup string_dec all_proj_keys = all_proj_keys)
    by (vm_compute; reflexivity).
  rewrite <- E. apply NoDup_nodup.
Qed.

Lemma in_vocabulary_In (k : string) :
  in_vocabulary k = true <-> In k all_proj_keys.
Proof. exact (mem_In k all_proj_keys). Qed.

Lemma key_of_line_tokens (line k : string) :
  key_of_line line = Some k <->
  exists t rest, PyStr.split line = t :: rest /\
                 k = PyStr.strip (PyStr.lstrip_char "+" t).
Proof.
  unfold key_of_line, first_token.
  destruct (PyStr.split line) as [| t rest]; simpl; split.
  - discriminate.
  - intros [t [rest [H _]]]. discriminate H.
  - intros [= <-]. exists t, rest. split; reflexivity.
  - intros [t' [rest' [[= <- <-] ->]]]. reflexivity.
Qed.

(** C9.  The vocabulary is read off the table: the lines kept are the
    non-blank ones; a key is in [all_proj_keys] exactly when it is
    ["no_mayo"] or the first blank-delimited token of a non-blank line,
    without its leading [+] and trimmed; the list holds each key once,
    ["no_mayo"] last; and the membership test is equality of text, so
    that it tells [k] from [K] and rejects [PROJ]. *)
Theorem all_proj_keys_from_table :
  let table_lines := PyStr.split_on "010" _param_data in
  _lines = filter (fun l => negb (blank l)) table_lines
  /\ (forall k,
        In k all_proj_keys <->
        k = "no_mayo" \/
        exists line t rest,
          In line table_lines /\ blank line = false /\
          PyStr.split line = t :: rest /\
          k = PyStr.strip (PyStr.lstrip_char "+" t))
  /\ (exists ks, all_proj_keys = (ks ++ ["no_mayo"])%list /\
                 ~ In "no_mayo" ks)
  /\ NoDup all_proj_keys
  /\ (forall k, in_vocabulary k = true <->
                exists k', In k' all_proj_keys /\ k' = k)
  /\ in_vocabulary "k" = true /\ in_vocabulary "K" = true
  /\ in_vocabulary "proj" = true /\ in_vocabulary "PROJ" = false
  /\ in_vocabulary "Proj" = false /\ in_vocabulary "no_mayo" = true.
Proof.
  intros table_lines.
  split; [exact _lines_non_blank |].
  split.
  { intros k. destruct keys_of_lines_table as [ks [E ->]].
    rewrite in_app_iff. unfold PyStr.distinct. rewrite nodup_In.
    rewrite (keys_of_lines_In _ _ E k). split.
    - intros [[line [Hin Hk]] | [Hk | []]].
      + right. rewrite _lines_non_blank in Hin.
        apply filter_In in Hin. destruct Hin as [Hin Hb].
        apply key_of_line_tokens in Hk. destruct Hk as [t [rest [Es Hk]]].
        exists line, t, rest. split; [exact Hin |].
        split; [| split; [exact Es | exact Hk]].
        apply negb_true_iff. exact Hb.
      + left. symmetry. exact Hk.
    - intros [Hk | [line [t [rest [Hin [Hb [Es Hk]]]]]]].
      + right. left. symmetry. exact Hk.
      + left. exists line. split.
        * rewrite _lines_non_blank. apply filter_In.
          split; [exact Hin |]. apply negb_true_iff. exact Hb.
        * apply key_of_line_tokens. exists t, rest.
          split; [exact Es | exact Hk]. }
  split.
  { exists (removelast all_proj_keys). split.
    - vm_compute. reflexivity.
    - apply mem_false. vm_compute. reflexivity. }
  split; [exact all_proj_keys_NoDup |].
  split.
  { intros k. split.
    - intros H. exists k. split; [| reflexivity].
      apply in_vocabulary_In. exact H.
    - intros [k' [H E]]. apply in_vocabulary_In. rewrite <- E. exact H. }
  repeat split; vm_compute; reflexivity.
Qed.

Lemma all_proj_keys_from_table_witness :
  In "proj" all_proj_keys /\ In "no_mayo" all_proj_keys
  /\ ~ In "bogus" all_proj_keys.
Proof.
  destruct all_proj_keys_from_table as [_ [H [_ [_ [Hm _]]]]].
  split; [| split].
  - apply H. right.
    exists "+proj      Projection name (see `proj -l`)", "+proj",
           ["Projection"; "name"; "(see"; "`proj"; "-l`)"].
    split; [apply mem_In; vm_compute; reflexivity |].
    split; [reflexivity |]. split; reflexivity.
  - apply H. now left.
  - intros Hin. assert (E : in_vocabulary "bogus" = true).
    { apply Hm. exists "bogus". split; [exact Hin | reflexivity]. }
    vm_compute in E. discriminate E.
Defined.

(** ** Order of text and sorting *)

Lemma ascii_compare_refl (a : ascii) : Ascii.compare a a = Eq.
Proof. unfold Ascii.compare. apply N.compare_refl. Qed.

Lemma ascii_compare_trans (a b c : ascii) :
  Ascii.compare a b = Lt -> Ascii.compare b c = Lt -> Ascii.compare a c = Lt.
Proof.
  unfold Ascii.compare. rewrite !N.compare_lt_iff. apply N.lt_trans.
Qed.

Lemma string_compare_trans (a b c : string) :
  String.compare a b = Lt -> String.compare b c = Lt ->
  String.compare a c = Lt.
Proof.
  revert b c. induction a as [| x a IH]; intros [| y b] [| z c]; simpl;
    try discriminate; try reflexivity.
  destruct (Ascii.compare x y) eqn:Exy; try discriminate;
    destruct (Ascii.compare y z) eqn:Eyz; try discriminate; intros H1 H2.
  - apply Ascii.compare_eq_iff in Exy, Eyz. subst.
    rewrite ascii_compare_refl. now apply IH with b.
  - apply Ascii.compare_eq_iff in Exy. subst. now rewrite Eyz.
  - apply Ascii.compare_eq_iff in Eyz. subst. now rewrite Exy.
  - now rewrite (ascii_compare_trans _ _ _ Exy Eyz).
Qed.

Lemma string_compare_refl (a : string) : String.compare a a = Eq.
Proof.
  induction a as [| x a IH]; simpl; [reflexivity |].
  now rewrite ascii_compare_refl.
Qed.

Lemma ltb_trans (a b c : string) :
  String.ltb a b = true -> String.ltb b c = true -> String.ltb a c = true.
Proof.
  unfold String.ltb. intros H1 H2.
  destruct (String.compare a b) eqn:E1; try discriminate.
  destruct (String.compare b c) eqn:E2; try discriminate.
  now rewrite (string_compare_trans _ _ _ E1 E2).
Qed.

Lemma ltb_irrefl (a : string) : String.ltb a a = false.
Proof. unfold String.ltb. now rewrite string_compare_refl. Qed.

Lemma leb_false_ltb (a b : string) :
  String.leb a b = false -> String.ltb b a = true.
Proof.
  unfold String.leb, String.ltb. rewrite (String.compare_antisym a b).
  destruct (String.compare b a); simpl; congruence.
Qed.

Lemma leb_true_cases (a b : string) :
  String.leb a b = true -> a = b \/ String.ltb a b = true.
Proof.
  unfold String.leb, String.ltb.
  destruct (String.compare a b) eqn:E; try discriminate; intros _.
  - left. now apply String.compare_eq_iff.
  - now right.
Qed.

Lemma ltb_asym (a b : string) :
  String.ltb a b = true -> String.ltb b a = true -> False.
Proof.
  intros H1 H2. pose proof (ltb_trans _ _ _ H1 H2) as H.
  rewrite ltb_irrefl in H. discriminate.
Qed.

Lemma Permutation_filter {A} (f : A -> bool) (l l' : list A) :
  Permutation l l' -> Permutation (filter f l) (filter f l').
Proof.
  induction 1 as [| x l l' _ IH | x y l | l l' l'' _ IH1 _ IH2]; simpl.
  - constructor.
  - destruct (f x); [now constructor | assumption].
  - destruct (f x), (f y); try reflexivity. constructor.
  - now transitivity (filter f l').
Qed.

Section Sorting.
Context `{F : FloatOps}.

Lemma insert_item_perm (x : string * value) (l : list (string * value)) :
  Permutation (insert_item x l) (x :: l).
Proof.
  induction l as [| y l IH]; simpl; [reflexivity |].
  destruct (String.leb (fst x) (fst y)); [reflexivity |].
  rewrite IH. constructor.
Qed.

Lemma sorted_perm (l : list (string * value)) : Permutation (sorted l) l.
Proof.
  induction l as [| x l IH]; simpl; [constructor |].
  rewrite insert_item_perm. now constructor.
Qed.

Lemma keys_perm (l l' : list (string * value)) :
  Permutation l l' -> Permutation (keys l) (keys l').
Proof. apply Permutation_map. Qed.

Lemma keys_filter_NoDup (f : string * value -> bool) (l : crs) :
  NoDup (keys l) -> NoDup (keys (filter f l)).
Proof.
  induction l as [| x l IH]; simpl; intros H; [constructor |].
  inversion H as [| ? ? Hn Hd]; subst.
  destruct (f x); simpl; [constructor |]; auto.
  intros Hin. apply Hn. unfold keys in *.
  apply in_map_iff in Hin. destruct Hin as [y [Hy Hin]].
  apply filter_In in Hin. apply in_map_iff. exists y. tauto.
Qed.

Lemma insert_item_sorted (x : string * value) (l : list (string * value)) :
  ~ In (fst x) (keys l) -> StronglySorted key_lt l ->
  StronglySorted key_lt (insert_item x l).
Proof.
  induction l as [| y l IH]; simpl; intros Hn Hs.
  - repeat constructor.
  - inversion Hs as [| ? ? Hs' Hall]; subst.
    destruct (String.leb (fst x) (fst y)) eqn:E.
    + assert (Hxy : key_lt x y).
      { destruct (leb_true_cases _ _ E) as [He | Hl]; [| exact Hl].
        exfalso. apply Hn. now left. }
      constructor; [assumption |]. constructor; [assumption |].
      eapply Forall_impl; [| exact Hall].
      intros z Hz. unfold key_lt in *. eapply ltb_trans; eassumption.
    + constructor.
      * apply IH; [| assumption]. intros Hin. apply Hn. now right.
      * rewrite Forall_forall in Hall |- *. intros z Hz.
        apply (Permutation_in _ (insert_item_perm x l)) in Hz.
        destruct Hz as [<- | Hz]; [now apply leb_false_ltb | auto].
Qed.

Lemma sorted_sorted (l : list (string * value)) :
  NoDup (keys l) -> StronglySorted key_lt (sorted l).
Proof.
  induction l as [| x l IH]; simpl; intros H; [constructor |].
  inversion H as [| ? ? Hn Hd]; subst.
  apply insert_item_sorted; [| auto].
  intros Hin. apply Hn. revert Hin.
  apply Permutation_in. apply keys_perm, sorted_perm.
Qed.

(** A list of entries has one arrangement in increasing key order. *)
Lemma sorted_unique (l1 l2 : list (string * value)) :
  StronglySorted key_lt l1 -> StronglySorted key_lt l2 ->
  Permutation l1 l2 -> l1 = l2.
Proof.
  revert l2. induction l1 as [| a l1 IH]; intros l2 H1 H2 HP.
  - now apply Permutation_nil in HP.
  - destruct l2 as [| b l2].
    + symmetry in HP. now apply Permutation_nil in HP.
    + inversion H1 as [| ? ? H1' A1]; inversion H2 as [| ? ? H2' A2]; subst.
      assert (Hab : a = b).
      { assert (Ia : In a (b :: l2))
          by (eapply Permutation_in; [exact HP | now left]).
        assert (Ib : In b (a :: l1))
          by (eapply Permutation_in; [symmetry; exact HP | now left]).
        destruct Ia as [-> | Ia]; [reflexivity |].
        destruct Ib as [-> | Ib]; [reflexivity |].
        rewrite Forall_forall in A1, A2.
        exfalso. exact (ltb_asym _ _ (A1 _ Ib) (A2 _ Ia)). }
      subst b. f_equal. apply IH; try assumption.
      now apply Permutation_cons_inv with a.
Qed.

Lemma sorted_permutation_invariant (l l' : list (string * value)) :
  NoDup (keys l) -> Permutation l l' -> sorted l' = sorted l.
Proof.
  intros Hd HP. apply sorted_unique.
  - apply sorted_sorted. revert Hd. apply Permutation_NoDup.
    now apply keys_perm.
  - now apply sorted_sorted.
  - rewrite !sorted_perm. now symmetry.
Qed.

End Sorting.

(** ** Encode *)

Arguments in_vocabulary k : simpl never.

Lemma vocabulary_nonempty (k : string) :
  in_vocabulary k = true -> k <> EmptyString.
Proof. intros H ->. vm_compute in H. discriminate. Qed.

Section Encode.
Context {F : FloatOps} {B : Builtins}.

Lemma keep_item_spec (kv : string * value) : keep_item kv = keep_spec kv.
Proof.
  destruct kv as [k v]. unfold keep_item, keep_spec. simpl.
  destruct (in_vocabulary k); [| reflexivity].
  destruct v as [| [|] | | | | |]; reflexivity.
Qed.

Lemma filter_keep_spec (m : crs) : filter keep_item m = filter keep_spec m.
Proof. apply filter_ext. exact keep_item_spec. Qed.

Lemma keep_part_key (k : string) :
  k <> EmptyString -> keep_part (VStr k) = true.
Proof. destruct k; [congruence | reflexivity]. Qed.

(** What [to_string] appends for an entry that passed its filter. *)
Lemma render_kept (kv : string * value) :
  keep_spec kv = true -> render kv = token_amended kv.
Proof.
  destruct kv as [k v]. unfold keep_spec, render, token_amended. simpl fst.
  simpl snd. intros H. apply andb_true_iff in H. destruct H as [Hk Hv].
  apply vocabulary_nonempty in Hk.
  cbn [filter]. rewrite (keep_part_key k Hk).
  destruct v as [| [|] | n | x | s | |]; try discriminate.
  - reflexivity.
  - unfold keep_part. simpl. rewrite orb_comm, orb_negb_r. reflexivity.
  - unfold keep_part. simpl. rewrite orb_comm, orb_negb_r. reflexivity.
  - destruct s; reflexivity.
Qed.

Lemma to_string_tokens (m : crs) :
  to_string m
  = PyStr.join " " (map token_amended (sorted (filter keep_spec m))).
Proof.
  unfold to_string. rewrite filter_keep_spec. f_equal.
  apply map_ext_in. intros kv Hin. apply render_kept.
  apply (Permutation_in _ (sorted_perm _)) in Hin.
  apply filter_In in Hin. tauto.
Qed.

(** C2, amended.  [to_string] keeps the entries with a vocabulary key
    and a value that is [True], an integer, a float or text; writes
    them in increasing order of their keys, an entry with value [True]
    or with the empty text as [+key] and any other as [+key=value];
    joins the tokens with single spaces; gives the empty string when no
    entry is kept; and gives the same string for every order in which
    the mapping lists its entries. *)
Theorem to_string_sorted_tokens (m : crs) :
  NoDup (keys m) ->
  encodes_as token_amended m (to_string m)
  /\ (filter keep_spec m = [] -> to_string m = EmptyString)
  /\ (forall m', Permutation m m' -> to_string m' = to_string m).
Proof.
  intros Hd. split; [| split].
  - exists (sorted (filter keep_spec m)). split; [apply sorted_perm |].
    split; [| apply to_string_tokens].
    apply sorted_sorted. now apply keys_filter_NoDup.
  - intros E. rewrite to_string_tokens, E. reflexivity.
  - intros m' HP. rewrite !to_string_tokens. do 2 f_equal.
    apply sorted_permutation_invariant.
    + now apply keys_filter_NoDup.
    + now apply Permutation_filter.
Qed.

(** C10.  For a vocabulary key, an entry whose value is the empty text
    is kept and written as the bare [+key], and an entry whose value is
    the integer zero is kept and written as [+key=0]: as a token, and as
    the whole output for a mapping of that one entry. *)
Theorem to_string_empty_text_and_zero (k : string) :
  in_vocabulary k = true ->
  (keep_item (k, VStr EmptyString) = true /\
   render (k, VStr EmptyString) = "+" ++ k /\
   to_string [(k, VStr EmptyString)] = "+" ++ k)
  /\ (keep_item (k, VInt 0) = true /\
      render (k, VInt 0) = "+" ++ k ++ "=0" /\
      to_string [(k, VInt 0)] = "+" ++ k ++ "=0").
Proof.
  intros Hk.
  assert (K1 : keep_spec (k, VStr EmptyString) = true)
    by (unfold keep_spec; simpl; now rewrite Hk).
  assert (K2 : keep_spec (k, VInt 0) = true)
    by (unfold keep_spec; simpl; now rewrite Hk).
  repeat split.
  - now rewrite keep_item_spec.
  - now rewrite render_kept.
  - rewrite to_string_tokens. simpl. now rewrite K1.
  - now rewrite keep_item_spec.
  - now rewrite render_kept.
  - rewrite to_string_tokens. simpl. now rewrite K2.
Qed.

End Encode.

Lemma to_string_sorted_tokens_witness :
  NoDup (keys mixed_example)
  /\ to_string (B := Ref.builtins) mixed_example
     = "+a +lat_0=45.5 +no_defs +proj=utm +zone=10"
  /\ encodes_as token_amended mixed_example
                (to_string (B := Ref.builtins) mixed_example)
  /\ to_string (B := Ref.builtins) (List.rev mixed_example)
     = to_string (B := Ref.builtins) mixed_example.
Proof.
  assert (Hd : NoDup (keys mixed_example)).
  { assert (E : nodup string_dec (keys mixed_example) = keys mixed_example)
      by reflexivity.
    rewrite <- E. apply NoDup_nodup. }
  destruct (to_string_sorted_tokens (B := Ref.builtins) mixed_example Hd)
    as [H1 [_ H3]].
  split; [exact Hd |]. split; [reflexivity |]. split; [exact H1 |].
  apply H3. apply Permutation_rev.
Defined.

Lemma to_string_empty_text_and_zero_witness :
  in_vocabulary "proj" = true
  /\ to_string (B := Ref.builtins) [("proj", VStr EmptyString)] = "+proj"
  /\ to_string (B := Ref.builtins) [("zone", VInt 0)] = "+zone=0".
Proof.
  split; [reflexivity |]. split.
  - exact (proj2 (proj2 (proj1
             (to_string_empty_text_and_zero "proj" eq_refl)))).
  - exact (proj2 (proj2 (proj2
             (to_string_empty_text_and_zero "zone" eq_refl)))).
Defined.

(** C2 as stated fails: with every value other than [True] written as
    [+key=value], the mapping of [proj] to the empty text would be
    encoded as [+proj=]; [to_string] gives [+proj]. *)
Lemma to_string_not_token_spec :
  NoDup (keys empty_text_example)
  /\ to_string (B := Ref.builtins) empty_text_example = "+proj"
  /\ ~ encodes_as token_spec empty_text_example
                  (to_string (B := Ref.builtins) empty_text_example).
Proof.
  split; [repeat constructor; simpl; tauto |].
  split; [reflexivity |].
  intros [l [HP [_ E]]].
  change (filter keep_spec empty_text_example) with empty_text_example in HP.
  apply Permutation_sym, Permutation_length_1_inv in HP. subst l.
  discriminate E.
Qed.

(** ** Integer literals *)

Lemma string_of_uint_digits (d : Decimal.uint) :
  digits_only (DecimalString.NilEmpty.string_of_uint d) = true.
Proof. induction d; simpl; auto. Qed.

Lemma digit_run_digits (s : string) :
  digits_only s = true -> PyInt.digit_run true s = Some s.
Proof.
  induction s as [| c s IH]; simpl; [reflexivity |].
  intros H. apply andb_true_iff in H. destruct H as [Hc Hs].
  now rewrite Hc, IH.
Qed.

Lemma digit_run_start (s : string) :
  digits_only s = true -> s <> EmptyString ->
  PyInt.digit_run false s = Some s.
Proof.
  destruct s as [| c s]; [congruence |]. simpl. intros H _.
  apply andb_true_iff in H. destruct H as [Hc Hs].
  now rewrite Hc, digit_run_digits.
Qed.

Lemma digit_not_blank (c : ascii) :
  PyInt.is_digit c = true -> PyInt.is_blank c = false.
Proof.
  destruct c as [[] [] [] [] [] [] [] []]; try discriminate; reflexivity.
Qed.

Lemma digit_not_sign (c : ascii) :
  PyInt.is_digit c = true ->
  Ascii.eqb c "+" = false /\ Ascii.eqb c "-" = false.
Proof.
  destruct c as [[] [] [] [] [] [] [] []]; try discriminate;
    split; reflexivity.
Qed.

Lemma rtrim_digits (s : string) :
  digits_only s = true -> PyInt.rtrim s = s.
Proof.
  induction s as [| c s IH]; simpl; [reflexivity |].
  intros H. apply andb_true_iff in H. destruct H as [Hc Hs].
  rewrite (IH Hs), (digit_not_blank c Hc). now destruct s.
Qed.

Lemma digits_of_spec (p : positive) :
  digits_only (digits_of p) = true /\ digits_of p <> EmptyString /\
  PyInt.unsigned_literal (digits_of p) = Some (Zpos p).
Proof.
  unfold digits_of.
  assert (Hd := string_of_uint_digits (Pos.to_uint p)).
  assert (Hn : DecimalString.NilEmpty.string_of_uint (Pos.to_uint p)
               <> EmptyString).
  { pose proof (DecimalPos.Unsigned.to_uint_nonnil p) as Hnil.
    destruct (Pos.to_uint p); simpl; congruence. }
  repeat split; try assumption.
  unfold PyInt.unsigned_literal.
  rewrite (digit_run_start _ Hd Hn), DecimalString.NilEmpty.usu. simpl.
  unfold Z.of_uint. now rewrite DecimalPos.Unsigned.of_to.
Qed.

Lemma to_string_pos (p : positive) : PyInt.to_string (Zpos p) = digits_of p.
Proof.
  unfold PyInt.to_string, digits_of. simpl.
  pose proof (DecimalPos.Unsigned.to_uint_nonnil p) as Hnil.
  unfold DecimalString.NilZero.string_of_uint.
  now destruct (Pos.to_uint p).
Qed.

Lemma to_string_neg (p : positive) :
  PyInt.to_string (Zneg p) = String "-" (digits_of p).
Proof.
  unfold PyInt.to_string, digits_of. simpl.
  pose proof (DecimalPos.Unsigned.to_uint_nonnil p) as Hnil.
  unfold DecimalString.NilZero.string_of_uint.
  now destruct (Pos.to_uint p).
Qed.

Lemma trim_digits (s : string) :
  digits_only s = true -> PyInt.trim s = s.
Proof.
  intros H. unfold PyInt.trim.
  assert (E : PyInt.ltrim s = s).
  { destruct s as [| c s]; [reflexivity |]. simpl in *.
    apply andb_true_iff in H. now rewrite (digit_not_blank c (proj1 H)). }
  rewrite E. now apply rtrim_digits.
Qed.

Lemma trim_minus_digits (s : string) :
  digits_only s = true -> s <> EmptyString ->
  PyInt.trim (String "-" s) = String "-" s.
Proof.
  intros H Hn. unfold PyInt.trim. simpl.
  rewrite (rtrim_digits s H). now destruct s.
Qed.

(** [int(str(n)) == n] *)
Lemma of_string_to_string (n : Z) :
  PyInt.of_string (PyInt.to_string n) = Some n.
Proof.
  destruct n as [| p | p].
  - reflexivity.
  - rewrite to_string_pos. destruct (digits_of_spec p) as [Hd [Hn Hv]].
    unfold PyInt.of_string. rewrite (trim_digits _ Hd).
    destruct (digits_of p) as [| c r] eqn:E; [congruence |].
    simpl in Hd. apply andb_true_iff in Hd.
    destruct (digit_not_sign c (proj1 Hd)) as [-> ->]. exact Hv.
  - rewrite to_string_neg. destruct (digits_of_spec p) as [Hd [Hn Hv]].
    unfold PyInt.of_string. rewrite (trim_minus_digits _ Hd Hn).
    simpl. now rewrite Hv.
Qed.

(** ** Splitting on a character *)

Lemma split_on_first (c : ascii) (s : string) :
  PyStr.split_on c s =
  match split_first c s with
  | None => [s]
  | Some (l, r) => l :: PyStr.split_on c r
  end.
Proof.
  induction s as [| a s IH]; simpl; [reflexivity |].
  destruct (Ascii.eqb a c); [reflexivity |].
  rewrite IH. now destruct (split_first c s) as [[l r] |].
Qed.

Lemma split_first_none (c : ascii) (s : string) :
  split_first c s = None <-> count_char c s = 0.
Proof.
  induction s as [| a s IH]; simpl; [tauto |].
  destruct (Ascii.eqb a c); simpl.
  - split; discriminate.
  - rewrite <- IH. destruct (split_first c s) as [[l r] |]; split;
      congruence.
Qed.

Lemma split_first_some (c : ascii) (s l r : string) :
  split_first c s = Some (l, r) ->
  s = l ++ String c r /\ count_char c l = 0 /\
  count_char c s = S (count_char c r).
Proof.
  revert l. induction s as [| a s IH]; simpl; intros l; [discriminate |].
  destruct (Ascii.eqb a c) eqn:E.
  - intros [= <- <-]. apply Ascii.eqb_eq in E. subst. simpl. auto.
  - destruct (split_first c s) as [[l' r'] |]; [| discriminate].
    intros [= <- <-]. destruct (IH l' eq_refl) as [-> [H0 H1]].
    simpl. rewrite E. simpl. rewrite <- H1. auto.
Qed.

Lemma split_on_absent (c : ascii) (s : string) :
  count_char c s = 0 -> PyStr.split_on c s = [s].
Proof.
  intros H. rewrite split_on_first.
  apply split_first_none in H. now rewrite H.
Qed.

Lemma split_on_once (c : ascii) (s : string) :
  count_char c s = 1 ->
  exists l r, split_first c s = Some (l, r) /\ PyStr.split_on c s = [l; r].
Proof.
  intros H. rewrite split_on_first.
  destruct (split_first c s) as [[l r] |] eqn:E.
  - exists l, r. split; [reflexivity |].
    destruct (split_first_some _ _ _ _ E) as [_ [_ Hc]].
    rewrite (split_on_absent c r); [reflexivity | lia].
  - apply split_first_none in E. lia.
Qed.

Lemma count_lstrip (c : ascii) (s : string) :
  count_char c (PyStr.lstrip s) <= count_char c s.
Proof.
  induction s as [| a s IH]; simpl; [lia |].
  destruct (PyStr.is_space a); simpl; lia.
Qed.

Lemma count_rstrip (c : ascii) (s : string) :
  count_char c (PyStr.rstrip s) <= count_char c s.
Proof.
  induction s as [| a s IH]; [simpl; lia |].
  cbn [PyStr.rstrip count_char].
  destruct (PyStr.rstrip s) as [| b r].
  - destruct (PyStr.is_space a); simpl in *; lia.
  - cbn [count_char] in *. lia.
Qed.

Lemma upper_colon (c : ascii) :
  Ascii.eqb ":" (PyStr.upper_char c) = true -> c = ":"%char.
Proof.
  destruct c as [[] [] [] [] [] [] [] []]; try discriminate; reflexivity.
Qed.

(** An input with the EPSG prefix has a colon, so that the second piece
    of its split exists: [from_string] does not raise [IndexError]. *)
Lemma second_piece_defined (prjs : string) :
  PyStr.startswith "EPSG:" (PyStr.upper (PyStr.strip prjs)) = true ->
  exists code, second_piece prjs = Some code.
Proof.
  intros H.
  assert (Hc : 1 <= count_char ":" (PyStr.strip prjs)).
  { destruct (PyStr.strip prjs) as [| c1 [| c2 [| c3 [| c4 [| c5 r]]]]];
      cbn [PyStr.upper PyStr.startswith] in H;
      repeat (apply andb_true_iff in H; destruct H as [? H]);
      try discriminate H.
    match goal with
    | Hx : Ascii.eqb ":" _ = true |- _ => apply upper_colon in Hx; subst c5
    end.
    cbn [count_char]. rewrite Ascii.eqb_refl. lia. }
  assert (Hp : 1 <= count_char ":" prjs).
  { unfold PyStr.strip in Hc.
    pose proof (count_rstrip ":" (PyStr.lstrip prjs)).
    pose proof (count_lstrip ":" prjs). lia. }
  unfold second_piece. rewrite split_on_first.
  destruct (split_first ":" prjs) as [[l r] |] eqn:E.
  - rewrite (split_on_first ":" r).
    destruct (split_first ":" r) as [[l' r'] |]; eexists; reflexivity.
  - apply split_first_none in E. lia.
Qed.

(** ** The EPSG constructor and the EPSG shorthand *)

(** The decimal digits of a positive number do not start with a zero. *)
Lemma to_uint_head (p : positive) (u : Decimal.uint) :
  Pos.to_uint p <> Decimal.D0 u.
Proof.
  intros E.
  assert (Hn : Decimal.unorm (Pos.to_uint p) = Pos.to_uint p).
  { rewrite <- DecimalPos.Unsigned.to_of, DecimalPos.Unsigned.of_to.
    reflexivity. }
  rewrite E, DecimalFacts.unorm_D0 in Hn.
  destruct (Decimal.uint_eq_dec u Decimal.Nil) as [-> | Hne].
  - now apply (DecimalPos.Unsigned.to_uint_nonzero p).
  - pose proof (DecimalFacts.nb_digits_unorm u Hne) as Hu.
    rewrite Hn in Hu. simpl in Hu. lia.
Qed.

Lemma digits_of_head (p : positive) :
  PyStr.startswith "0" (digits_of p) = false.
Proof.
  unfold digits_of. destruct (Pos.to_uint p) eqn:E; try reflexivity.
  now apply to_uint_head in E.
Qed.


Section Epsg.
Context {F : FloatOps} {B : Builtins}.

(** C7.  [from_epsg] reads its argument as an integer.  When that
    fails, or gives a number that is not positive, it raises a
    [ValueError]; otherwise it returns the two entries [init], the text
    ["epsg:"] followed by the argument as written, and [no_defs],
    [True].  Every positive integer is accepted, given as a number or
    in decimal digits; a number is written in decimal digits, without a
    sign and without a leading zero, that read back as the number: for
    4326 the entry is [epsg:4326]. *)
Theorem from_epsg_checks_code (code : epsg_code) :
  (forall n, int_of_code code = Ok n -> (0 < n)%Z ->
     from_epsg code = Ok [("init", VStr ("epsg:" ++ code_str code));
                          ("no_defs", VBool true)])
  /\ (forall n, int_of_code code = Ok n -> (n <= 0)%Z ->
        exists e, from_epsg code = Raise e /\ is_ValueError e = true)
  /\ (forall e', int_of_code code = Raise e' ->
        exists e, from_epsg code = Raise e /\ is_ValueError e = true)
  /\ (forall n, (0 < n)%Z ->
        from_epsg (IntCode n)
        = Ok [("init", VStr ("epsg:" ++ PyInt.to_string n));
              ("no_defs", VBool true)]
        /\ from_epsg (TextCode (PyInt.to_string n)) = from_epsg (IntCode n)
        /\ PyInt.to_string n <> EmptyString
        /\ digits_only (PyInt.to_string n) = true
        /\ PyStr.startswith "0" (PyInt.to_string n) = false
        /\ PyInt.of_string (PyInt.to_string n) = Some n)
  /\ from_epsg (IntCode 4326)
     = Ok [("init", VStr "epsg:4326"); ("no_defs", VBool true)]
  /\ from_epsg (TextCode "4326")
     = Ok [("init", VStr "epsg:4326"); ("no_defs", VBool true)].
Proof.
  split; [| split; [| split; [| split; [| split; reflexivity]]]].
  - unfold from_epsg. intros n -> Hn.
    destruct (Z.leb_spec n 0); [lia | reflexivity].
  - unfold from_epsg. intros n -> Hn. destruct (Z.leb_spec n 0); [| lia].
    eexists. split; reflexivity.
  - unfold from_epsg. intros e' E. rewrite E. exists e'.
    split; [reflexivity |].
    destruct code as [n | s]; simpl in E; [discriminate |].
    destruct (PyInt.of_string s); [discriminate |].
    now injection E as <-.
  - intros n Hn. split; [| split].
    + unfold from_epsg. simpl.
      destruct (Z.leb_spec n 0); [lia | reflexivity].
    + unfold from_epsg. simpl. now rewrite of_string_to_string.
    + destruct n as [| p | p]; try lia. rewrite to_string_pos.
      destruct (digits_of_spec p) as [Hd [Hne _]].
      split; [exact Hne |]. split; [exact Hd |].
      split; [apply digits_of_head |].
      rewrite <- to_string_pos. apply of_string_to_string.
Qed.

(** C8, amended.  When the input has no brace, starts with [EPSG:]
    once trimmed and upper-cased, and holds one colon, [from_string]
    passes what follows the colon to [from_epsg] and returns its
    mapping or raises its error; [from_string "EPSG:4326"] and
    [from_epsg 4326] give the same two entries. *)
Theorem from_string_epsg_shorthand (prjs : string) :
  PyStr.contains "{" prjs = false ->
  PyStr.startswith "EPSG:" (PyStr.upper (PyStr.strip prjs)) = true ->
  count_char ":" prjs = 1 ->
  from_string prjs = from_epsg_text_spec prjs
  /\ from_string "EPSG:4326"
     = Ok (Mapping [("init", VStr "epsg:4326"); ("no_defs", VBool true)])
  /\ from_epsg (IntCode 4326)
     = Ok [("init", VStr "epsg:4326"); ("no_defs", VBool true)].
Proof.
  intros Hj He Hc. split; [| split; reflexivity].
  unfold from_string, from_epsg_text_spec, second_piece.
  rewrite Hj, He.
  destruct (split_on_once _ _ Hc) as [l [r [-> ->]]]. reflexivity.
Qed.

End Epsg.

Lemma from_epsg_checks_code_witness :
  from_epsg (F := Ref.float_ops) (TextCode " 4326")
  = Ok [("init", VStr "epsg: 4326"); ("no_defs", VBool true)]
  /\ (exists e, from_epsg (F := Ref.float_ops) (IntCode (-5)) = Raise e /\
                is_ValueError e = true)
  /\ (exists e, from_epsg (F := Ref.float_ops) (TextCode "43x6") = Raise e /\
                is_ValueError e = true)
  /\ from_epsg (F := Ref.float_ops) (IntCode 27700)
     = Ok [("init", VStr "epsg:27700"); ("no_defs", VBool true)]
  /\ from_epsg (F := Ref.float_ops) (IntCode 4326)
     = Ok [("init", VStr "epsg:4326"); ("no_defs", VBool true)].
Proof.
  split; [| split; [| split; [| split]]].
  - apply (proj1 (from_epsg_checks_code (TextCode " 4326")) 4326%Z);
      [reflexivity | lia].
  - apply (proj1 (proj2 (from_epsg_checks_code (IntCode (-5)))) (-5)%Z);
      [reflexivity | lia].
  - apply (proj1 (proj2 (proj2 (from_epsg_checks_code (TextCode "43x6"))))
             (InvalidLiteral "43x6")).
    reflexivity.
  - exact (proj1 (proj1 (proj2 (proj2 (proj2
             (from_epsg_checks_code (F := Ref.float_ops) (IntCode 27700)))))
             27700%Z eq_refl)).
  - exact (proj1 (proj2 (proj2 (proj2 (proj2
             (from_epsg_checks_code (F := Ref.float_ops) (IntCode 4326))))))).
Defined.

Lemma from_string_epsg_shorthand_witness :
  PyStr.contains "{" " epsg:3005 " = false
  /\ PyStr.startswith "EPSG:" (PyStr.upper (PyStr.strip " epsg:3005 ")) = true
  /\ count_char ":" " epsg:3005 " = 1
  /\ from_string (B := Ref.builtins) " epsg:3005 "
     = from_epsg_text_spec " epsg:3005 ".
Proof.
  split; [reflexivity |]. split; [reflexivity |]. split; [reflexivity |].
  exact (proj1 (from_string_epsg_shorthand (B := Ref.builtins)
                  " epsg:3005 " eq_refl eq_refl eq_refl)).
Defined.

(** C8 as stated fails: with a second colon in the input, what follows
    the first colon is not an integer, while [from_string] passes only
    the piece between the two colons to [from_epsg]. *)
Lemma from_string_epsg_second_colon :
  PyStr.startswith "EPSG:" (PyStr.upper (PyStr.strip "EPSG:4326:1")) = true
  /\ from_string (B := Ref.builtins) "EPSG:4326:1"
     = Ok (Mapping [("init", VStr "epsg:4326"); ("no_defs", VBool true)])
  /\ from_epsg_text_spec (F := Ref.float_ops) "EPSG:4326:1"
     = Raise (InvalidLiteral "4326:1")
  /\ from_string (B := Ref.builtins) "EPSG:4326:1"
     <> from_epsg_text_spec "EPSG:4326:1".
Proof. repeat split. discriminate. Qed.

(** ** Decode: the JSON branch *)

Section Json.
Context {F : FloatOps} {B : Builtins}.


End Json.


(** ** Decode: the scalar-typing rule *)

Lemma digit_run_shape (b : bool) (s ds : string) :
  PyInt.digit_run b s = Some ds ->
  all_chars (fun a => PyInt.is_digit a || Ascii.eqb a "_") s = true
  /\ (b = false -> s <> EmptyString).
Proof.
  revert b ds. induction s as [| c s IH]; simpl; intros b ds.
  - destruct b; [intros _ | discriminate]. split; [reflexivity | discriminate].
  - destruct (PyInt.is_digit c) eqn:Ec; simpl.
    + destruct (PyInt.digit_run true s) as [r |] eqn:Er; [| discriminate].
      intros _. split; [| discriminate]. exact (proj1 (IH _ _ Er)).
    + destruct (Ascii.eqb c "_"); [| discriminate].
      destruct b; [| discriminate]. intros Er.
      split; [| discriminate]. exact (proj1 (IH _ _ Er)).
Qed.

Lemma unsigned_literal_shape (s : string) (n : Z) :
  PyInt.unsigned_literal s = Some n ->
  s <> EmptyString /\
  all_chars (fun a => PyInt.is_digit a || Ascii.eqb a "_") s = true.
Proof.
  unfold PyInt.unsigned_literal.
  destruct (PyInt.digit_run false s) as [ds |] eqn:E; [| discriminate].
  intros _. destruct (digit_run_shape _ _ _ E) as [H1 H2]. auto.
Qed.

(** [int(v)] succeeds on whole literals only. *)
Lemma of_string_literal (v : string) (n : Z) :
  PyInt.of_string v = Some n -> int_literal v = true.
Proof.
  unfold PyInt.of_string, int_literal.
  destruct (PyInt.trim v) as [| c r]; [discriminate |].
  destruct (Ascii.eqb c "+") eqn:Ep; simpl.
  - intros H. apply unsigned_literal_shape in H. destruct H as [Hn ->].
    destruct r; [congruence | reflexivity].
  - destruct (Ascii.eqb c "-") eqn:Em; simpl.
    + destruct (PyInt.unsigned_literal r) as [m |] eqn:E; [| discriminate].
      intros _. apply unsigned_literal_shape in E. destruct E as [Hn ->].
      destruct r; [congruence | reflexivity].
    + intros H. apply unsigned_literal_shape in H. destruct H as [_ H].
      exact H.
Qed.

Section Typing.
Context {F : FloatOps} {B : Builtins}.

(** Without a brace and without the EPSG prefix, [from_string] runs its
    PROJ.4 branch. *)
Lemma from_string_proj4 (prjs : string) :
  PyStr.contains "{" prjs = false ->
  PyStr.startswith "EPSG:" (PyStr.upper (PyStr.strip prjs)) = false ->
  from_string prjs = from_proj4 prjs.
Proof. intros H1 H2. unfold from_string. now rewrite H1, H2. Qed.

(** The decimal digits of an integer are typed as that integer. *)
Lemma parse_int_text (n : Z) : parse (PyInt.to_string n) = VInt n.
Proof.
  unfold parse. pose proof (of_string_to_string n) as Hn.
  destruct (String.eqb_spec (PyInt.to_string n) "True") as [E | _];
    [rewrite E in Hn; discriminate Hn |].
  destruct (String.eqb_spec (PyInt.to_string n) "true") as [E | _];
    [rewrite E in Hn; discriminate Hn |].
  destruct (String.eqb_spec (PyInt.to_string n) "False") as [E | _];
    [rewrite E in Hn; discriminate Hn |].
  destruct (String.eqb_spec (PyInt.to_string n) "false") as [E | _];
    [rewrite E in Hn; discriminate Hn |].
  simpl. now rewrite Hn.
Qed.

(** C4.  [parse] maps the four boolean words to [True] and [False];
    of the other texts, those that are whole integer literals to that
    integer (and the decimal digits of any integer to it); of the rest,
    those that [float] accepts to that float; and it leaves the
    remaining texts as they are.  With ["45.5"] read as the float [x],
    [from_string "+lat_0=45.5 +zone=12"] is the mapping of [lat_0] to
    [x] and [zone] to the integer 12. *)
Theorem parse_scalar_typing :
  (parse "True" = VBool true /\ parse "true" = VBool true /\
   parse "False" = VBool false /\ parse "false" = VBool false)
  /\ (forall v,
        v <> "True" -> v <> "true" -> v <> "False" -> v <> "false" ->
        (forall n, PyInt.of_string v = Some n ->
                   parse v = VInt n /\ int_literal v = true)
        /\ (forall x, PyInt.of_string v = None ->
                      float_of_string v = Some x -> parse v = VFloat x)
        /\ (PyInt.of_string v = None -> float_of_string v = None ->
            parse v = VStr v))
  /\ (forall n, parse (PyInt.to_string n) = VInt n)
  /\ (PyInt.of_string "12abc" = None /\ PyInt.of_string "12.0" = None /\
      PyInt.of_string "1 2" = None /\ PyInt.of_string EmptyString = None)
  /\ (forall x, float_of_string "45.5" = Some x ->
        from_string "+lat_0=45.5 +zone=12"
        = Ok (Mapping [("lat_0", VFloat x); ("zone", VInt 12)])).
Proof.
  split; [repeat split |]. split; [| split; [| split; [repeat split |]]].
  - intros v H1 H2 H3 H4. unfold parse.
    apply String.eqb_neq in H1, H2, H3, H4. rewrite H1, H2, H3, H4. simpl.
    repeat split.
    + now rewrite H.
    + eapply of_string_literal; eassumption.
    + intros x -> Hx. now rewrite Hx.
    + intros -> Hx. now rewrite Hx.
  - exact parse_int_text.
  - intros x Hx.
    assert (P1 : parse "45.5" = VFloat x).
    { unfold parse. change (PyInt.of_string "45.5") with (@None Z).
      rewrite Hx. reflexivity. }
    rewrite from_string_proj4 by reflexivity. unfold from_proj4.
    change (parts "+lat_0=45.5 +zone=12") with ["lat_0=45.5"; "zone=12"].
    cbn [map]. unfold item_of_part.
    change (PyStr.split_on "=" "lat_0=45.5") with ["lat_0"; "45.5"].
    change (PyStr.split_on "=" "zone=12") with ["zone"; "12"].
    cbv iota beta. rewrite P1. reflexivity.
Qed.

End Typing.

Lemma parse_scalar_typing_witness :
  parse (F := Ref.float_ops) "45.5"
  = VFloat (S754_finite false 6403555720167424 (-47))
  /\ parse (F := Ref.float_ops) "12" = VInt 12
  /\ parse (F := Ref.float_ops) "longlat" = VStr "longlat"
  /\ from_string (B := Ref.builtins) "+lat_0=45.5 +zone=12"
     = Ok (Mapping
             [("lat_0", VFloat (S754_finite false 6403555720167424 (-47)));
              ("zone", VInt 12)]).
Proof.
  pose proof (parse_scalar_typing (B := Ref.builtins)) as [_ [H [_ [_ Hex]]]].
  split; [| split; [| split]].
  - apply (proj1 (proj2 (H "45.5" ltac:(discriminate) ltac:(discriminate)
                           ltac:(discriminate) ltac:(discriminate))));
      reflexivity.
  - apply (proj1 (H "12" ltac:(discriminate) ltac:(discriminate)
                    ltac:(discriminate) ltac:(discriminate)) 12%Z).
    reflexivity.
  - apply (proj2 (proj2 (H "longlat" ltac:(discriminate) ltac:(discriminate)
                           ltac:(discriminate) ltac:(discriminate))));
      reflexivity.
  - apply Hex. reflexivity.
Defined.

(** ** Decode: tokens *)

Lemma split_tokens (s : string) :
  Forall (fun t => t <> EmptyString /\ no_space t = true) (PyStr.split s).
Proof.
  induction s as [| c s IH]; simpl; [constructor |].
  destruct (PyStr.is_space c) eqn:Ec; [exact IH |].
  assert (Hc : String c EmptyString <> EmptyString /\
               no_space (String c EmptyString) = true).
  { split; [discriminate |]. unfold no_space. simpl. now rewrite Ec. }
  destruct (PyStr.at_break s); [now constructor |].
  destruct (PyStr.split s) as [| t ts]; [now constructor |].
  inversion IH as [| ? ? [_ Ht] Hts]; subst. constructor; [| assumption].
  split; [discriminate |]. unfold no_space in *. simpl. now rewrite Ec.
Qed.

Lemma split_first_app (c : ascii) (k v : string) :
  count_char c k = 0 -> split_first c (k ++ String c v) = Some (k, v).
Proof.
  induction k as [| a k IH]; simpl.
  - intros _. now rewrite Ascii.eqb_refl.
  - destruct (Ascii.eqb a c); simpl; [discriminate |].
    intros H. now rewrite (IH H).
Qed.

Section Tokens.
Context {F : FloatOps} {B : Builtins}.

Lemma item_of_part_flag (p : string) :
  count_char "=" p = 0 -> item_of_part p = (p, VBool true).
Proof.
  intros H. unfold item_of_part. now rewrite (split_on_absent _ _ H).
Qed.

Lemma item_of_part_pair (k v : string) :
  count_char "=" k = 0 -> count_char "=" v = 0 ->
  item_of_part (k ++ "=" ++ v) = (k, parse v).
Proof.
  intros Hk Hv. unfold item_of_part. rewrite split_on_first.
  change (k ++ "=" ++ v) with (k ++ String "=" v).
  rewrite (split_first_app _ _ _ Hk), (split_on_absent _ _ Hv). reflexivity.
Qed.

Lemma item_of_part_spec (p : string) :
  count_char "=" p <= 1 -> item_of_part p = item_spec p.
Proof.
  intros H. unfold item_spec.
  destruct (count_char "=" p) as [| [| n]] eqn:E; [| | lia].
  - rewrite (item_of_part_flag _ E).
    apply split_first_none in E. now rewrite E.
  - destruct (split_on_once _ _ E) as [l [r [E1 E2]]].
    unfold item_of_part. now rewrite E1, E2.
Qed.

(** C3, amended.  On the PROJ.4 branch the trimmed input is cut at
    blanks into tokens, which are non-empty and free of blanks, and the
    leading [+] signs of each are dropped.  A token without [=] is a
    key with value [True]; a token with one [=] gives the key on its
    left and, on its right, the raw value that [parse] types.  When no
    token holds more than one [=], [from_string] is the decode of the
    specification; and [from_string "+no_defs"] is the mapping of
    [no_defs] to [True]. *)
Theorem from_string_tokens (prjs : string) :
  PyStr.contains "{" prjs = false ->
  PyStr.startswith "EPSG:" (PyStr.upper (PyStr.strip prjs)) = false ->
  Forall (fun p => count_char "=" p <= 1) (parts prjs) ->
  from_string prjs = from_proj4_spec prjs
  /\ parts prjs = map (PyStr.lstrip_char "+") (PyStr.split (PyStr.strip prjs))
  /\ Forall (fun t => t <> EmptyString /\ no_space t = true)
            (PyStr.split (PyStr.strip prjs))
  /\ (forall p, count_char "=" p = 0 -> item_of_part p = (p, VBool true))
  /\ (forall k v, count_char "=" k = 0 -> count_char "=" v = 0 ->
        item_of_part (k ++ "=" ++ v) = (k, parse v))
  /\ from_string "+no_defs" = Ok (Mapping [("no_defs", VBool true)]).
Proof.
  intros H1 H2 H3. split; [| split; [reflexivity | split; [apply split_tokens |
    split; [exact item_of_part_flag | split; [exact item_of_part_pair |
    reflexivity]]]]].
  rewrite (from_string_proj4 _ H1 H2). unfold from_proj4, from_proj4_spec.
  replace (map item_spec (parts prjs)) with (map item_of_part (parts prjs));
    [reflexivity |].
  apply map_ext_in. intros p Hp. apply item_of_part_spec.
  rewrite Forall_forall in H3. now apply H3.
Qed.

End Tokens.

Lemma from_string_tokens_witness :
  Forall (fun p => count_char "=" p <= 1) (parts "  +proj=utm +zone=10 +south ")
  /\ from_string (B := Ref.builtins) "  +proj=utm +zone=10 +south "
     = from_proj4_spec "  +proj=utm +zone=10 +south "
  /\ from_string (B := Ref.builtins) "  +proj=utm +zone=10 +south "
     = Ok (Mapping [("proj", VStr "utm"); ("zone", VInt 10);
                    ("south", VBool true)]).
Proof.
  assert (H : Forall (fun p => count_char "=" p <= 1)
                     (parts "  +proj=utm +zone=10 +south ")).
  { change (parts "  +proj=utm +zone=10 +south ")
      with ["proj=utm"; "zone=10"; "south"].
    repeat (constructor; [vm_compute; lia |]). constructor. }
  split; [exact H |]. split; [| reflexivity].
  exact (proj1 (from_string_tokens (B := Ref.builtins)
                  "  +proj=utm +zone=10 +south " eq_refl eq_refl H)).
Defined.

(** C3 as stated fails: split on the first [=], the token [+proj=a=b]
    would give the key [proj] and the text [a=b]; [from_string] splits
    on every [=], finds three pieces and takes the token for a flag. *)
Lemma from_string_second_equals :
  PyStr.contains "{" "+proj=a=b" = false
  /\ PyStr.startswith "EPSG:" (PyStr.upper (PyStr.strip "+proj=a=b")) = false
  /\ from_string (B := Ref.builtins) "+proj=a=b"
     = Ok (Mapping [("proj", VBool true)])
  /\ from_proj4_spec (F := Ref.float_ops) "+proj=a=b"
     = Ok (Mapping [("proj", VStr "a=b")])
  /\ from_string (B := Ref.builtins) "+proj=a=b" <> from_proj4_spec "+proj=a=b".
Proof.
  split; [reflexivity |]. split; [reflexivity |]. split; [reflexivity |].
  split; [reflexivity |]. discriminate.
Qed.

(** ** Decode: the vocabulary filter and the resulting mapping *)

Section Filter.
Context {F : FloatOps} {B : Builtins}.

Lemma keys_setitem (d : crs) (k : string) (v : value) :
  keys (setitem d k v)
  = if PyStr.mem k (keys d) then keys d else (keys d ++ [k])%list.
Proof.
  induction d as [| [k' v'] d IH]; simpl; [reflexivity |].
  rewrite (String.eqb_sym k k').
  destruct (String.eqb k' k); simpl; [reflexivity |].
  rewrite IH. unfold PyStr.mem. now destruct (existsb (String.eqb k) (keys d)).
Qed.

Lemma lookup_setitem (d : crs) (k k' : string) (v : value) :
  lookup k' (setitem d k v)
  = if String.eqb k k' then Some v else lookup k' d.
Proof.
  induction d as [| [k0 v0] d IH].
  - unfold lookup. simpl. now destruct (String.eqb k k').
  - cbn [setitem]. destruct (String.eqb_spec k0 k) as [-> | Hne].
    + unfold lookup. simpl. now destruct (String.eqb k k').
    + unfold lookup in *. cbn [find fst snd]. 
      destruct (String.eqb_spec k0 k') as [-> | Hne'].
      * destruct (String.eqb_spec k k'); [congruence | reflexivity].
      * exact IH.
Qed.

Lemma keys_fold (pairs : list (string * value)) (d : crs) :
  keys (fold_left (fun d kv => setitem d (fst kv) (snd kv)) pairs d)
  = (keys d ++ first_seen (keys d) (keys pairs))%list.
Proof.
  revert d. induction pairs as [| [k v] pairs IH]; intros d; simpl.
  - now rewrite app_nil_r.
  - rewrite IH, keys_setitem.
    destruct (PyStr.mem k (keys d)); [reflexivity |].
    now rewrite <- app_assoc.
Qed.

Lemma last_value_cons (k : string) (kv : string * value)
  (pairs : list (string * value)) :
  last_value k (kv :: pairs)
  = match last_value k pairs with
    | Some v => Some v
    | None => if String.eqb (fst kv) k then Some (snd kv) else None
    end.
Proof.
  unfold last_value. simpl.
  induction (List.rev pairs) as [| x l IH]; simpl.
  - now destruct (String.eqb (fst kv) k).
  - destruct (String.eqb (fst x) k); [reflexivity | exact IH].
Qed.

Lemma lookup_fold (pairs : list (string * value)) (d : crs) (k : string) :
  lookup k (fold_left (fun d kv => setitem d (fst kv) (snd kv)) pairs d)
  = match last_value k pairs with
    | Some v => Some v
    | None => lookup k d
    end.
Proof.
  revert d. induction pairs as [| [k0 v0] pairs IH]; intros d; simpl.
  - reflexivity.
  - rewrite IH, last_value_cons, lookup_setitem. simpl.
    destruct (last_value k pairs); [reflexivity |].
    now destruct (String.eqb k0 k).
Qed.

(** C5.  On the PROJ.4 branch, with [surv] the typed tokens whose key
    is in the vocabulary: if there is none, [from_string] raises the
    error of an empty or invalid input, which carries the input;
    otherwise it returns the mapping whose keys are those of [surv] in
    first-seen order, each once and every one in the vocabulary, and
    whose value for a key is that of the last token with it. *)
Theorem from_string_keeps_vocabulary (prjs : string) :
  PyStr.contains "{" prjs = false ->
  PyStr.startswith "EPSG:" (PyStr.upper (PyStr.strip prjs)) = false ->
  let surv := filter (fun kv => in_vocabulary (fst kv))
                     (map item_of_part (parts prjs)) in
  (surv = [] ->
   from_string prjs = Raise (CRSError ("crs is empty or invalid: " ++ prjs)))
  /\ (surv <> [] ->
      exists out,
        from_string prjs = Ok (Mapping out)
        /\ keys out = first_seen [] (keys surv)
        /\ (forall k, lookup k out = last_value k surv)
        /\ Forall (fun k => in_vocabulary k = true) (keys out)).
Proof.
  intros H1 H2 surv. rewrite (from_string_proj4 _ H1 H2). unfold from_proj4.
  fold surv. split.
  - intros ->. reflexivity.
  - intros Hne. exists (CRS_of_pairs surv).
    assert (Hk : keys (CRS_of_pairs surv) = first_seen [] (keys surv))
      by (unfold CRS_of_pairs; now rewrite keys_fold).
    split; [| split; [exact Hk | split]].
    + destruct (CRS_of_pairs surv) eqn:E; [| reflexivity].
      destruct surv as [| [k v] surv']; [congruence |]. discriminate Hk.
    + intros k. unfold CRS_of_pairs. rewrite lookup_fold.
      now destruct (last_value k surv).
    + rewrite Hk.
      assert (Hv : Forall (fun k => in_vocabulary k = true) (keys surv)).
      { unfold keys. rewrite Forall_map. apply Forall_forall.
        intros kv Hin. apply filter_In in Hin. tauto. }
      clear -Hv. generalize (@nil string).
      induction (keys surv) as [| k l IH]; intros seen; simpl; [constructor |].
      inversion Hv; subst.
      destruct (PyStr.mem k seen); [auto | constructor; auto].
Qed.

End Filter.

Lemma from_string_keeps_vocabulary_witness :
  from_string (B := Ref.builtins) "+bogus=1"
  = Raise (CRSError "crs is empty or invalid: +bogus=1")
  /\ from_string (B := Ref.builtins) EmptyString
     = Raise (CRSError "crs is empty or invalid: ")
  /\ from_string (B := Ref.builtins) "+bogus=1 +proj=longlat"
     = Ok (Mapping [("proj", VStr "longlat")])
  /\ from_string (B := Ref.builtins) "+proj=a +zone=1 +x=2 +proj=b"
     = Ok (Mapping [("proj", VStr "b"); ("zone", VInt 1)])
  /\ exists out,
       from_string (B := Ref.builtins) "+proj=a +zone=1 +x=2 +proj=b"
       = Ok (Mapping out)
       /\ keys out = ["proj"; "zone"]
       /\ lookup "proj" out = Some (VStr "b").
Proof.
  split; [| split; [| split; [| split]]].
  - exact (proj1 (from_string_keeps_vocabulary (B := Ref.builtins)
                    "+bogus=1" eq_refl eq_refl) eq_refl).
  - exact (proj1 (from_string_keeps_vocabulary (B := Ref.builtins)
                    EmptyString eq_refl eq_refl) eq_refl).
  - reflexivity.
  - reflexivity.
  - destruct (proj2 (from_string_keeps_vocabulary (B := Ref.builtins)
                       "+proj=a +zone=1 +x=2 +proj=b" eq_refl eq_refl)
                ltac:(discriminate)) as [out [E [Hk [Hl _]]]].
    exists out. split; [exact E |]. split; [exact Hk |].
    rewrite Hl. reflexivity.
Defined.

(** ** Strings of tokens *)

Lemma append_empty_r (s : string) : s ++ EmptyString = s.
Proof. induction s as [| c s IH]; simpl; [reflexivity | now rewrite IH]. Qed.

Lemma all_chars_app (f : ascii -> bool) (a b : string) :
  all_chars f (a ++ b) = all_chars f a && all_chars f b.
Proof.
  induction a as [| c a IH]; simpl; [reflexivity |].
  now rewrite IH, andb_assoc.
Qed.

Lemma all_chars_impl (f g : ascii -> bool) (s : string) :
  (forall c, f c = true -> g c = true) ->
  all_chars f s = true -> all_chars g s = true.
Proof.
  intros Hfg. induction s as [| c s IH]; simpl; [reflexivity |].
  intros H. apply andb_true_iff in H. destruct H as [Hc Hs].
  now rewrite (Hfg c Hc), IH.
Qed.

Lemma token_text_plain (s : string) :
  token_text s = true -> plain_text s = true.
Proof.
  apply all_chars_impl. intros c. unfold breaks_token.
  destruct (PyStr.is_space c), (Ascii.eqb c "="), (Ascii.eqb c "{");
    simpl; congruence.
Qed.

Lemma token_text_count (s : string) :
  token_text s = true -> count_char "=" s = 0.
Proof.
  unfold token_text. induction s as [| c s IH]; simpl; [reflexivity |].
  intros H. apply andb_true_iff in H. destruct H as [Hc Hs].
  rewrite (IH Hs). unfold breaks_token in Hc.
  destruct (Ascii.eqb c "="); [| reflexivity].
  rewrite orb_true_r in Hc. discriminate.
Qed.

Lemma plain_no_space (s : string) : plain_text s = true -> no_space s = true.
Proof.
  apply all_chars_impl. intros c H. apply andb_true_iff in H. tauto.
Qed.

Lemma plain_no_brace (s : string) :
  plain_text s = true -> PyStr.contains "{" s = false.
Proof.
  unfold plain_text. induction s as [| c s IH]; simpl; [reflexivity |].
  intros H. apply andb_true_iff in H. destruct H as [Hc Hs].
  apply andb_true_iff in Hc. destruct Hc as [_ Hc].
  apply negb_true_iff in Hc. now rewrite Hc, IH.
Qed.

Lemma digits_token_text (s : string) :
  digits_only s = true -> token_text s = true.
Proof.
  unfold token_text. induction s as [| c s IH]; simpl; [reflexivity |].
  intros H. apply andb_true_iff in H. destruct H as [Hc Hs].
  rewrite (IH Hs), andb_true_r. revert Hc. clear.
  destruct c as [[] [] [] [] [] [] [] []]; try discriminate; reflexivity.
Qed.

Lemma to_string_token_text (n : Z) : token_text (PyInt.to_string n) = true.
Proof.
  destruct n as [| p | p].
  - reflexivity.
  - rewrite to_string_pos. apply digits_token_text.
    apply digits_of_spec.
  - rewrite to_string_neg. unfold token_text. simpl.
    apply digits_token_text. apply digits_of_spec.
Qed.

(** [split] on one token, and on a token followed by a blank. *)
Lemma split_token (t : string) :
  t <> EmptyString -> no_space t = true -> PyStr.split t = [t].
Proof.
  unfold no_space. induction t as [| a t IH]; [congruence |].
  intros _ H. simpl in H. apply andb_true_iff in H. destruct H as [Ha Ht].
  apply negb_true_iff in Ha. simpl. rewrite Ha.
  destruct t as [| b t']; [reflexivity |].
  assert (Hb : PyStr.at_break (String b t') = false).
  { simpl in Ht |- *. apply andb_true_iff in Ht.
    now apply negb_true_iff. }
  rewrite Hb, IH; [reflexivity | discriminate | exact Ht].
Qed.

Lemma split_token_blank (t : string) (c : ascii) (rest : string) :
  t <> EmptyString -> no_space t = true -> PyStr.is_space c = true ->
  PyStr.split (t ++ String c rest) = t :: PyStr.split rest.
Proof.
  unfold no_space. intros Hn Ht Hc.
  induction t as [| a t IH]; [congruence |].
  simpl in Ht. apply andb_true_iff in Ht. destruct Ht as [Ha Ht].
  apply negb_true_iff in Ha. cbn [append PyStr.split]. rewrite Ha.
  destruct t as [| b t'].
  - cbn [append PyStr.at_break PyStr.split]. now rewrite Hc.
  - assert (Hb : PyStr.at_break (String b t' ++ String c rest) = false).
    { simpl in Ht |- *. apply andb_true_iff in Ht.
      now apply negb_true_iff. }
    rewrite Hb, IH; [reflexivity | discriminate | exact Ht].
Qed.

Lemma join_cons2 (sep t u : string) (l : list string) :
  PyStr.join sep (t :: u :: l) = t ++ sep ++ PyStr.join sep (u :: l).
Proof. reflexivity. Qed.

Lemma join_nonempty (t : string) (l : list string) :
  t <> EmptyString -> PyStr.join " " (t :: l) <> EmptyString.
Proof.
  intros Ht. destruct l as [| u l]; [exact Ht |].
  rewrite join_cons2. destruct t; [congruence | discriminate].
Qed.

Lemma split_join (toks : list string) :
  Forall (fun t => t <> EmptyString /\ no_space t = true) toks ->
  PyStr.split (PyStr.join " " toks) = toks.
Proof.
  induction 1 as [| t l [Hn Ht] Hl IH]; [reflexivity |].
  destruct l as [| u l]; [now apply split_token |].
  rewrite join_cons2. change (" " ++ ?x) with (String " " x).
  rewrite split_token_blank by (assumption || reflexivity).
  now rewrite IH.
Qed.

Lemma rstrip_token (t : string) : no_space t = true -> PyStr.rstrip t = t.
Proof.
  unfold no_space. induction t as [| a t IH]; simpl; [reflexivity |].
  intros H. apply andb_true_iff in H. destruct H as [Ha Ht].
  apply negb_true_iff in Ha. rewrite (IH Ht), Ha. now destruct t.
Qed.

Lemma rstrip_app (a b : string) :
  PyStr.rstrip b <> EmptyString ->
  PyStr.rstrip (a ++ b) = a ++ PyStr.rstrip b.
Proof.
  intros Hb. induction a as [| c a IH]; simpl; [reflexivity |].
  rewrite IH. destruct (a ++ PyStr.rstrip b) eqn:E; [| reflexivity].
  destruct a; simpl in E; [congruence | discriminate].
Qed.

Lemma rstrip_cons (c : ascii) (s : string) :
  PyStr.rstrip (String c s)
  = match PyStr.rstrip s with
    | EmptyString =>
        if PyStr.is_space c then EmptyString else String c EmptyString
    | r => String c r
    end.
Proof. reflexivity. Qed.

Lemma rstrip_join (toks : list string) :
  Forall (fun t => t <> EmptyString /\ no_space t = true) toks ->
  PyStr.rstrip (PyStr.join " " toks) = PyStr.join " " toks.
Proof.
  induction 1 as [| t l [Hn Ht] Hl IH]; [reflexivity |].
  destruct l as [| u l]; [now apply rstrip_token |].
  rewrite join_cons2. change (" " ++ ?x) with (String " " x).
  assert (E : PyStr.rstrip (String " " (PyStr.join " " (u :: l)))
              = String " " (PyStr.join " " (u :: l))).
  { rewrite rstrip_cons, IH.
    inversion Hl as [| ? ? [Hu _] _]; subst.
    pose proof (join_nonempty u l Hu) as Hj.
    now destruct (PyStr.join " " (u :: l)). }
  rewrite rstrip_app; rewrite E; [reflexivity | discriminate].
Qed.

Lemma contains_app (c : ascii) (a b : string) :
  PyStr.contains c (a ++ b) = PyStr.contains c a || PyStr.contains c b.
Proof.
  induction a as [| x a IH]; simpl; [reflexivity |].
  now rewrite IH, orb_assoc.
Qed.

Lemma contains_join (toks : list string) :
  Forall (fun t => PyStr.contains "{" t = false) toks ->
  PyStr.contains "{" (PyStr.join " " toks) = false.
Proof.
  induction 1 as [| t l Ht Hl IH]; [reflexivity |].
  destruct l as [| u l]; [exact Ht |].
  rewrite join_cons2, !contains_app, Ht, IH. reflexivity.
Qed.

(** The keys of the vocabulary can stand in a PROJ.4 string. *)
Lemma vocabulary_key_text (k : string) :
  in_vocabulary k = true -> key_text k = true.
Proof.
  intros H. apply in_vocabulary_In in H.
  assert (E : forallb key_text all_proj_keys = true)
    by (vm_compute; reflexivity).
  rewrite forallb_forall in E. now apply E.
Qed.

(** ** Round trip *)

Lemma filter_all {A} (f : A -> bool) (l : list A) :
  Forall (fun x => f x = true) l -> filter f l = l.
Proof.
  induction 1 as [| x l Hx _ IH]; simpl; [reflexivity |].
  now rewrite Hx, IH.
Qed.

Lemma join_head (c : ascii) (t : string) (l : list string) :
  exists r, PyStr.join " " (String c t :: l) = String c r.
Proof.
  destruct l as [| u l]; [now exists t |].
  rewrite join_cons2. eexists. reflexivity.
Qed.

Section RoundTrip.
Context {F : FloatOps} {B : Builtins}.

Lemma token_amended_body (kv : string * value) :
  token_amended kv = String "+" (body kv).
Proof.
  destruct kv as [k v]. unfold token_amended, body. simpl.
  destruct v as [| [|] | | | [|] | |]; reflexivity.
Qed.

Lemma key_text_facts (k : string) :
  key_text k = true ->
  k <> EmptyString /\ token_text k = true /\
  forall r, PyStr.lstrip_char "+" (k ++ r) = k ++ r.
Proof.
  unfold key_text. intros H.
  apply andb_true_iff in H. destruct H as [H H3].
  apply andb_true_iff in H. destruct H as [H1 H2].
  destruct k as [| c k]; [discriminate |].
  split; [discriminate |]. split; [exact H2 |].
  intros r. simpl.
  destruct (Ascii.eqb_spec c "+") as [-> | _]; [discriminate H3 | reflexivity].
Qed.

Lemma key_flag_body (k : string) :
  key_text k = true ->
  k <> EmptyString /\ plain_text k = true /\
  PyStr.lstrip_char "+" k = k /\ item_of_part k = (k, VBool true).
Proof.
  intros H. destruct (key_text_facts k H) as [Hn [Ht Hl]].
  split; [exact Hn |]. split; [now apply token_text_plain |].
  split.
  - specialize (Hl EmptyString). now rewrite append_empty_r in Hl.
  - apply item_of_part_flag. now apply token_text_count.
Qed.

Lemma key_pair_body (k w : string) :
  key_text k = true -> token_text w = true ->
  k ++ "=" ++ w <> EmptyString /\ plain_text (k ++ "=" ++ w) = true /\
  PyStr.lstrip_char "+" (k ++ "=" ++ w) = k ++ "=" ++ w /\
  item_of_part (k ++ "=" ++ w) = (k, parse w).
Proof.
  intros H Hw. destruct (key_text_facts k H) as [Hn [Ht Hl]].
  split; [destruct k; [congruence | discriminate] |].
  split.
  - unfold plain_text. rewrite !all_chars_app.
    fold (plain_text k). fold (plain_text w).
    now rewrite (token_text_plain k Ht), (token_text_plain w Hw).
  - split; [apply Hl |].
    apply item_of_part_pair; now apply token_text_count.
Qed.

(** What [to_string] writes for an entry on which the round trip is
    proved is one token, and [from_string] reads the entry back from
    it. *)
Lemma ready_body (kv : string * value) :
  ready kv ->
  keep_spec kv = true /\ body kv <> EmptyString /\
  plain_text (body kv) = true /\
  PyStr.lstrip_char "+" (body kv) = body kv /\
  item_of_part (body kv) = kv.
Proof.
  destruct kv as [k v]. unfold ready, keep_spec, body. simpl.
  intros [Hk Hs]. rewrite Hk. pose proof (vocabulary_key_text k Hk) as Hkt.
  destruct v as [| b | n | x | s | |]; simpl in Hs; try contradiction.
  - subst b. split; [reflexivity |]. now apply key_flag_body.
  - split; [reflexivity |].
    destruct (key_pair_body k _ Hkt (to_string_token_text n))
      as [H1 [H2 [H3 H4]]].
    now rewrite parse_int_text in H4.
  - destruct Hs as [Ht [Hp _]]. split; [reflexivity |].
    destruct (key_pair_body k _ Hkt Ht) as [H1 [H2 [H3 H4]]].
    now rewrite Hp in H4.
  - destruct Hs as [Hn [Ht Hp]]. split; [reflexivity |].
    destruct s as [| c s]; [congruence |].
    destruct (key_pair_body k _ Hkt Ht) as [H1 [H2 [H3 H4]]].
    now rewrite Hp in H4.
Qed.

Lemma setitem_new (d : crs) (k : string) (v : value) :
  ~ In k (keys d) -> setitem d k v = (d ++ [(k, v)])%list.
Proof.
  induction d as [| [k' v'] d IH]; simpl; intros H; [reflexivity |].
  destruct (String.eqb_spec k' k) as [E | _]; [tauto |].
  rewrite IH; tauto.
Qed.

Lemma fold_setitem_NoDup (l d : crs) :
  NoDup (keys d ++ keys l) ->
  fold_left (fun d kv => setitem d (fst kv) (snd kv)) l d = (d ++ l)%list.
Proof.
  revert d. induction l as [| [k v] l IH]; intros d H; simpl.
  - now rewrite app_nil_r.
  - simpl in H. pose proof (NoDup_remove_2 _ _ _ H) as Hk.
    rewrite setitem_new by (intros Hin; apply Hk, in_or_app; now left).
    rewrite IH.
    + now rewrite <- app_assoc.
    + unfold keys in *. rewrite map_app, <- app_assoc. exact H.
Qed.

Lemma CRS_of_pairs_NoDup (l : crs) : NoDup (keys l) -> CRS_of_pairs l = l.
Proof. intros H. unfold CRS_of_pairs. now rewrite fold_setitem_NoDup. Qed.

Lemma stable_same (v : value) : stable v -> same_value v v.
Proof.
  destruct v; simpl; try reflexivity. now intros [_ [_ H]].
Qed.

(** Decoding what [to_string] writes for entries on which the round
    trip is proved gives these entries, in the order of their keys. *)
Lemma from_string_to_string (m : crs) :
  m <> [] -> NoDup (keys m) -> Forall ready m ->
  from_string (to_string m) = Ok (Mapping (sorted m)).
Proof.
  intros Hne Hd Hr.
  assert (HP : Permutation (sorted m) m) by apply sorted_perm.
  assert (Hf : filter keep_spec m = m).
  { apply filter_all. eapply Forall_impl; [| exact Hr].
    intros kv H. now apply ready_body. }
  rewrite to_string_tokens, Hf.
  assert (HL : Forall ready (sorted m)).
  { rewrite Forall_forall in Hr |- *. intros kv Hin. apply Hr.
    revert Hin. now apply Permutation_in. }
  assert (HdL : NoDup (keys (sorted m))).
  { revert Hd. apply Permutation_NoDup. symmetry. now apply keys_perm. }
  assert (HneL : sorted m <> []).
  { intros E. rewrite E in HP. now apply Permutation_nil in HP. }
  clear Hf Hr Hd Hne HP. revert HL HdL HneL.
  generalize (sorted m). clear m. intros L HL HdL HneL.
  set (T := map token_amended L).
  assert (HT : Forall (fun t => t <> EmptyString /\ no_space t = true) T).
  { unfold T. rewrite Forall_map. eapply Forall_impl; [| exact HL].
    intros kv H. rewrite token_amended_body.
    destruct (ready_body kv H) as [_ [_ [Hp _]]].
    split; [discriminate |]. unfold no_space. simpl.
    now apply plain_no_space. }
  assert (HTb : Forall (fun t => PyStr.contains "{" t = false) T).
  { unfold T. rewrite Forall_map. eapply Forall_impl; [| exact HL].
    intros kv H. rewrite token_amended_body.
    destruct (ready_body kv H) as [_ [_ [Hp _]]].
    simpl. now apply plain_no_brace. }
  assert (Hplus : exists r, PyStr.join " " T = String "+" r).
  { unfold T. destruct L as [| kv L]; [congruence |]. simpl map.
    rewrite token_amended_body. apply join_head. }
  assert (Hstrip : PyStr.strip (PyStr.join " " T) = PyStr.join " " T).
  { unfold PyStr.strip. destruct Hplus as [r Er].
    assert (El : PyStr.lstrip (PyStr.join " " T) = PyStr.join " " T)
      by (rewrite Er; reflexivity).
    rewrite El. now apply rstrip_join. }
  assert (Hep : PyStr.startswith "EPSG:"
                  (PyStr.upper (PyStr.strip (PyStr.join " " T))) = false).
  { rewrite Hstrip. destruct Hplus as [r ->]. reflexivity. }
  rewrite from_string_proj4 by (assumption || now apply contains_join).
  unfold from_proj4, parts. rewrite Hstrip, split_join by assumption.
  assert (Hitems : map item_of_part (map (PyStr.lstrip_char "+") T) = L).
  { unfold T. rewrite !map_map. rewrite <- (map_id L) at 2.
    apply map_ext_in. intros kv Hin. rewrite Forall_forall in HL.
    destruct (ready_body kv (HL kv Hin)) as [_ [_ [_ [Hl Hi]]]].
    rewrite token_amended_body. simpl. now rewrite Hl, Hi. }
  rewrite Hitems.
  assert (Hv : filter (fun kv => in_vocabulary (fst kv)) L = L).
  { apply filter_all. eapply Forall_impl; [| exact HL]. now intros kv [H _]. }
  rewrite Hv, CRS_of_pairs_NoDup by assumption.
  destruct L; [congruence | reflexivity].
Qed.

(** C1, amended.  For a mapping that is not empty, whose keys are in
    the vocabulary and whose values are [True], integers, floats whose
    written form is one token that reads back as the same float, equal
    to itself, or non-empty texts that are one token which the
    scalar-typing rule leaves as text: decoding the encoding gives the
    entries of the mapping in increasing order of their keys, a mapping
    equal to the first. *)
Theorem decode_encode_round_trip (m : crs) :
  m <> [] -> NoDup (keys m) -> Forall ready m ->
  from_string (to_string m) = Ok (Mapping (sorted m))
  /\ Permutation (sorted m) m
  /\ round_trips m.
Proof.
  intros Hne Hd Hr.
  pose proof (from_string_to_string m Hne Hd Hr) as E.
  split; [exact E |]. split; [apply sorted_perm |].
  exists (sorted m). split; [exact E |].
  exists m. split; [apply sorted_perm |].
  clear -Hr. induction Hr as [| kv m [_ Hs] _ IH]; constructor.
  - split; [reflexivity | now apply stable_same].
  - exact IH.
Qed.

End RoundTrip.

Lemma decode_encode_round_trip_witness :
  utm_example <> []
  /\ NoDup (keys utm_example)
  /\ Forall ready utm_example
  /\ to_string (B := Ref.builtins) utm_example
     = "+k=-1 +lat_0=45.5 +no_defs +proj=utm +towgs84=0,0,0 +zone=10"
  /\ from_string (B := Ref.builtins) (to_string utm_example)
     = Ok (Mapping (sorted utm_example))
  /\ round_trips (B := Ref.builtins) utm_example.
Proof.
  assert (H1 : utm_example <> []) by discriminate.
  assert (H2 : NoDup (keys utm_example)).
  { assert (E : nodup string_dec (keys utm_example) = keys utm_example)
      by reflexivity.
    rewrite <- E. apply NoDup_nodup. }
  assert (H3 : Forall ready utm_example).
  { unfold utm_example.
    repeat (apply Forall_cons; [split; [reflexivity |] |]);
      try apply Forall_nil.
    - exact I.
    - split; [discriminate | split; reflexivity].
    - reflexivity.
    - split; [discriminate | split; reflexivity].
    - exact I.
    - split; [reflexivity | split; reflexivity]. }
  destruct (decode_encode_round_trip (B := Ref.builtins) utm_example H1 H2 H3)
    as [E [_ R]].
  split; [exact H1 |]. split; [exact H2 |]. split; [exact H3 |].
  split; [reflexivity |]. split; [exact E | exact R].
Defined.

(** C1 as stated fails on each of [failing_mappings], all of them with
    vocabulary keys and scalar values other than [False]: the empty
    mapping is encoded as the empty string, which decode rejects; the
    mapping of [proj] to the empty text comes back as [{"proj": True}];
    [{"ellps": "12"}] as [{"ellps": 12}]; [{"datum": "true"}] as
    [{"datum": True}];
    [{"proj": "a b"}] as [{"proj": "a", "b": True}]; [{"proj": "a=b"}]
    as [{"proj": True}]; [{"proj": "{"}] is encoded as [+proj={], which
    decode takes for JSON and rejects; and the NaN of [{"lat_0": nan}]
    comes back as a NaN, which is not equal to the first. *)
Lemma round_trip_fails :
  Forall (fun m => canonical m /\ ~ round_trips (B := Ref.builtins) m)
         failing_mappings.
Proof.
  assert (Hc : forall k v,
             in_vocabulary k = true -> is_scalar v = true ->
             is_False v = false -> canonical [(k, v)]).
  { intros k v H1 H2 H3. split.
    - constructor; [intros [] | constructor].
    - constructor; [tauto | constructor]. }
  assert (Hone : forall (k : string) (v w : value (F := Ref.float_ops)),
             ~ same_value w v ->
             ~ same_items [(k, w)] [(k, v)]).
  { intros k v w Hn [l [HP HF]].
    apply Permutation_length_1_inv in HP. subst l.
    inversion HF as [| ? ? ? ? [_ Hv] _]; subst. now apply Hn. }
  unfold failing_mappings.
  repeat (apply Forall_cons; [split |]); try apply Forall_nil;
    try (apply Hc; reflexivity).
  - split; constructor.
  - intros [m' [E _]]. discriminate E.
  - intros [m' [E S]].
    assert (E0 : from_string (B := Ref.builtins)
                   (to_string [("proj", VStr EmptyString)])
                 = Ok (Mapping [("proj", VBool true)])) by reflexivity.
    rewrite E0 in E. injection E as <-. revert S. apply Hone. discriminate.
  - intros [m' [E S]].
    assert (E0 : from_string (B := Ref.builtins)
                   (to_string [("ellps", VStr "12")])
                 = Ok (Mapping [("ellps", VInt 12)])) by reflexivity.
    rewrite E0 in E. injection E as <-. revert S. apply Hone. discriminate.
  - intros [m' [E S]].
    assert (E0 : from_string (B := Ref.builtins)
                   (to_string [("datum", VStr "true")])
                 = Ok (Mapping [("datum", VBool true)])) by reflexivity.
    rewrite E0 in E. injection E as <-. revert S. apply Hone. discriminate.
  - intros [m' [E [l [HP HF]]]].
    assert (E0 : from_string (B := Ref.builtins)
                   (to_string [("proj", VStr "a b")])
                 = Ok (Mapping [("proj", VStr "a"); ("b", VBool true)]))
      by reflexivity.
    rewrite E0 in E. injection E as <-.
    apply Permutation_length in HP. apply Forall2_length in HF.
    rewrite <- HP in HF. discriminate HF.
  - intros [m' [E S]].
    assert (E0 : from_string (B := Ref.builtins)
                   (to_string [("proj", VStr "a=b")])
                 = Ok (Mapping [("proj", VBool true)])) by reflexivity.
    rewrite E0 in E. injection E as <-. revert S. apply Hone. discriminate.
  - intros [m' [E _]]. discriminate E.
  - intros [m' [E S]].
    assert (E0 : from_string (B := Ref.builtins)
                   (to_string [("lat_0", VFloat S754_nan)])
                 = Ok (Mapping [("lat_0", VFloat S754_nan)])) by reflexivity.
    rewrite E0 in E. injection E as <-. revert S. apply Hone. discriminate.
Qed.

(** * Further properties *)

(** ** [CRS.is_epsg_code] *)

Section EpsgCode.
Context {F : FloatOps} {B : Builtins}.

Lemma is_epsg_code_exists (m : crs) :
  is_epsg_code m = true <->
  exists k s, In (k, VStr s) m /\
              PyStr.startswith "epsg" (PyStr.lower s) = true.
Proof.
  induction m as [| [k v] m IH]; simpl.
  - split; [discriminate | intros [k [s [[] _]]]].
  - destruct (is_epsg_text v) eqn:E.
    + split; [intros _ | reflexivity].
      destruct v; try discriminate E. exists k, s. split; [now left | exact E].
    + rewrite IH. split.
      * intros [k' [s [Hin Hs]]]. exists k', s. split; [now right | exact Hs].
      * intros [k' [s [[Heq | Hin] Hs]]].
        -- injection Heq as -> ->. simpl in E. congruence.
        -- exists k', s. split; assumption.
Qed.

(** X1.  [is_epsg_code] is true exactly when some value of the mapping
    is text that starts with [epsg] once lower-cased.  The answer does
    not depend on the order in which the mapping lists its entries, nor
    on the keys under which the values are stored, and an entry added
    to a mapping that is an EPSG code leaves it one. *)
Theorem is_epsg_code_values (m : crs) :
  (is_epsg_code m = true <->
   exists k s, In (k, VStr s) m /\
               PyStr.startswith "epsg" (PyStr.lower s) = true)
  /\ (forall m', Permutation m m' -> is_epsg_code m' = is_epsg_code m)
  /\ (forall f : string -> string,
        is_epsg_code (map (fun kv => (f (fst kv), snd kv)) m)
        = is_epsg_code m)
  /\ (forall kv, is_epsg_code m = true -> is_epsg_code (kv :: m) = true).
Proof.
  split; [apply is_epsg_code_exists |]. split; [| split].
  - intros m' HP.
    destruct (is_epsg_code m) eqn:E.
    + apply is_epsg_code_exists in E. destruct E as [k [s [Hin Hs]]].
      apply is_epsg_code_exists. exists k, s. split; [| exact Hs].
      now apply (Permutation_in _ HP).
    + destruct (is_epsg_code m') eqn:E'; [| reflexivity].
      apply is_epsg_code_exists in E'. destruct E' as [k [s [Hin Hs]]].
      rewrite <- E. symmetry. apply is_epsg_code_exists. exists k, s.
      split; [| exact Hs]. apply Permutation_sym in HP.
      now apply (Permutation_in _ HP).
  - intros f. induction m as [| [k v] m IH]; simpl; [reflexivity |].
    now rewrite IH.
  - intros [k v] H. simpl. rewrite H. now destruct (is_epsg_text v).
Qed.

Lemma from_epsg_Ok (code : epsg_code) (m : crs) :
  from_epsg code = Ok m ->
  m = [("init", VStr ("epsg:" ++ code_str code)); ("no_defs", VBool true)].
Proof.
  unfold from_epsg. destruct (int_of_code code) as [n | e]; [| discriminate].
  destruct (n <=? 0)%Z; [discriminate |]. now intros [= <-].
Qed.

Lemma from_epsg_Raise (code : epsg_code) (e : exn) :
  from_epsg code = Raise e -> is_ValueError e = true.
Proof.
  unfold from_epsg. destruct (int_of_code code) as [n | e'] eqn:E.
  - destruct (n <=? 0)%Z; [| discriminate]. now intros [= <-].
  - intros [= <-]. destruct code as [n | s]; simpl in E; [discriminate |].
    destruct (PyInt.of_string s); [discriminate |]. now injection E as <-.
Qed.

(** X2.  What [from_epsg] returns is an EPSG code for [is_epsg_code],
    and so is the mapping that [from_string] returns for an input with
    the EPSG prefix. *)
Theorem from_epsg_is_epsg_code :
  (forall code m, from_epsg code = Ok m -> is_epsg_code m = true)
  /\ (forall prjs m,
        PyStr.contains "{" prjs = false ->
        PyStr.startswith "EPSG:" (PyStr.upper (PyStr.strip prjs)) = true ->
        from_string prjs = Ok (Mapping m) -> is_epsg_code m = true).
Proof.
  assert (H : forall code m, from_epsg code = Ok m -> is_epsg_code m = true).
  { intros code m E. apply from_epsg_Ok in E. subst m. reflexivity. }
  split; [exact H |].
  intros prjs m H1 H2. unfold from_string. rewrite H1, H2.
  destruct (second_piece prjs) as [code |]; [| discriminate].
  destruct (from_epsg (TextCode code)) as [m' |] eqn:E; [| discriminate].
  intros [= <-]. now apply H with (TextCode code).
Qed.

(** X3.  Encoding what [from_epsg] returns gives [+init=epsg:], the
    code as it was passed, and [ +no_defs]. *)
Theorem to_string_from_epsg (code : epsg_code) (m : crs) :
  from_epsg code = Ok m ->
  to_string m = "+init=epsg:" ++ code_str code ++ " +no_defs".
Proof.
  intros E. apply from_epsg_Ok in E. subst m. rewrite to_string_tokens.
  change (filter keep_spec
            [("init", VStr ("epsg:" ++ code_str code)); ("no_defs", VBool true)])
    with [("init", VStr ("epsg:" ++ code_str code)); ("no_defs", VBool true)].
  change (sorted
            [("init", VStr ("epsg:" ++ code_str code)); ("no_defs", VBool true)])
    with [("init", VStr ("epsg:" ++ code_str code)); ("no_defs", VBool true)].
  cbn [map]. rewrite join_cons2. reflexivity.
Qed.

End EpsgCode.

(** ** The EPSG prefix, in any case *)

Lemma upper_app (a b : string) :
  PyStr.upper (a ++ b) = PyStr.upper a ++ PyStr.upper b.
Proof. induction a as [| c a IH]; simpl; [reflexivity | now rewrite IH]. Qed.

Lemma upper_epsg_letter (c : ascii) :
  (Ascii.eqb (PyStr.upper_char c) "E" || Ascii.eqb (PyStr.upper_char c) "P"
   || Ascii.eqb (PyStr.upper_char c) "S" || Ascii.eqb (PyStr.upper_char c) "G")
  = true ->
  PyStr.is_space c = false /\ Ascii.eqb c "{" = false /\
  Ascii.eqb c ":" = false.
Proof.
  destruct c as [[] [] [] [] [] [] [] []]; vm_compute; intros H;
    try discriminate H; repeat split.
Qed.

Lemma digit_not_colon (s : string) :
  digits_only s = true -> count_char ":" s = 0.
Proof.
  induction s as [| c s IH]; simpl; [reflexivity |].
  intros H. apply andb_true_iff in H. destruct H as [Hc Hs].
  rewrite (IH Hs). revert Hc. clear.
  destruct c as [[] [] [] [] [] [] [] []]; try discriminate; reflexivity.
Qed.

Section EpsgPrefix.
Context {F : FloatOps} {B : Builtins}.

(** The EPSG branch on an input of four letters, a colon and a code
    without blanks, braces and colons. *)
Lemma from_string_epsg_clean (a b c d : ascii) (code : string) :
  PyStr.upper_char a = "E"%char -> PyStr.upper_char b = "P"%char ->
  PyStr.upper_char c = "S"%char -> PyStr.upper_char d = "G"%char ->
  plain_text code = true -> count_char ":" code = 0 ->
  from_string (String a (String b (String c (String d (String ":" code)))))
  = match from_epsg (TextCode code) with
    | Ok m => Ok (Mapping m)
    | Raise e => Raise e
    end.
Proof.
  intros Ha Hb Hc Hd Hp Hn.
  destruct (upper_epsg_letter a) as [Sa [Ba Ca]]; [now rewrite Ha |].
  destruct (upper_epsg_letter b) as [Sb [Bb Cb]]; [now rewrite Hb |].
  destruct (upper_epsg_letter c) as [Sc [Bc Cc]]; [now rewrite Hc |].
  destruct (upper_epsg_letter d) as [Sd [Bd Cd]]; [now rewrite Hd |].
  set (s := String a (String b (String c (String d (String ":" code))))).
  assert (Hbrace : PyStr.contains "{" s = false).
  { unfold s. cbn [PyStr.contains].
    rewrite Ba, Bb, Bc, Bd, (plain_no_brace code Hp). reflexivity. }
  assert (Hstrip : PyStr.strip s = s).
  { unfold PyStr.strip.
    assert (El : PyStr.lstrip s = s) by (unfold s; simpl; now rewrite Sa).
    rewrite El. apply rstrip_token. unfold s, no_space. cbn [all_chars].
    rewrite Sa, Sb, Sc, Sd. simpl. now apply plain_no_space. }
  assert (Hpre : PyStr.startswith "EPSG:" (PyStr.upper (PyStr.strip s)) = true).
  { rewrite Hstrip. unfold s. cbn [PyStr.upper].
    rewrite Ha, Hb, Hc, Hd. reflexivity. }
  assert (Hsp : second_piece s = Some code).
  { assert (Hf : split_first ":" s
                 = Some (String a (String b (String c (String d EmptyString))),
                         code)).
    { unfold s. cbn [split_first]. rewrite Ca, Cb, Cc, Cd. reflexivity. }
    unfold second_piece. rewrite split_on_first, Hf.
    rewrite (split_on_absent _ _ Hn). reflexivity. }
  unfold from_string. now rewrite Hbrace, Hpre, Hsp.
Qed.

(** X4.  For every positive integer [n] and every way of writing the
    prefix [EPSG:] in upper or lower case, [from_string] of the prefix
    followed by the decimal digits of [n] returns what [from_epsg n]
    returns: [init] is [epsg:], in lower case, followed by the digits,
    and [no_defs] is [True]. *)
Theorem from_string_epsg_any_case (p : string) (n : Z) :
  PyStr.upper p = "EPSG:" -> (0 < n)%Z ->
  from_string (p ++ PyInt.to_string n)
  = Ok (Mapping [("init", VStr ("epsg:" ++ PyInt.to_string n));
                 ("no_defs", VBool true)])
  /\ from_epsg (IntCode n)
     = Ok [("init", VStr ("epsg:" ++ PyInt.to_string n));
           ("no_defs", VBool true)].
Proof.
  intros Hp Hn.
  assert (He : from_epsg (IntCode n)
               = Ok [("init", VStr ("epsg:" ++ PyInt.to_string n));
                     ("no_defs", VBool true)]).
  { unfold from_epsg. simpl. destruct (Z.leb_spec n 0); [lia | reflexivity]. }
  split; [| exact He].
  destruct p as [| a [| b [| c [| d [| e [| x p]]]]]]; try discriminate Hp.
  simpl in Hp. injection Hp as Ha Hb Hc Hd Hcolon.
  assert (e = ":"%char).
  { apply upper_colon. rewrite Hcolon. reflexivity. }
  subst e. cbn [append].
  destruct n as [| q | q]; try lia.
  assert (Hd' := digits_of_spec q). destruct Hd' as [Hdig _].
  rewrite from_string_epsg_clean; try assumption.
  - unfold from_epsg at 1. cbn [int_of_code code_str].
    rewrite of_string_to_string. reflexivity.
  - rewrite to_string_pos. now apply token_text_plain, digits_token_text.
  - rewrite to_string_pos. now apply digit_not_colon.
Qed.

(** ** What [from_string] raises and what it returns *)

(** X5.  An error of [from_string] is one of five.  When the input
    has a brace: the error of invalid JSON, when [json.loads] raised
    its [ValueError]; the error of empty JSON, when it gave a false
    value; and the [RecursionError] of [json.loads] itself, which the
    handler for [ValueError] lets through.  When the input has no
    brace: the [ValueError] of [from_epsg], with the EPSG prefix, and
    the error of an empty or invalid input, which carries the input,
    without.  The index [1] of the split on the colon is always there:
    no [IndexError]. *)
Theorem from_string_raises (prjs : string) (e : exn) :
  from_string prjs = Raise e ->
  e <> IndexError
  /\ ((PyStr.contains "{" prjs = true /\
       ((e = CRSError "crs appears to be JSON but is not valid" /\
         json_loads prjs = JsonDecodeError)
        \/ (e = CRSError "crs is empty JSON" /\
            exists val, json_loads prjs = JsonValue val /\
                        truthy val = false)
        \/ (e = RecursionError /\ json_loads prjs = JsonRecursionError)))
      \/ (PyStr.contains "{" prjs = false /\
          PyStr.startswith "EPSG:" (PyStr.upper (PyStr.strip prjs)) = true /\
          is_ValueError e = true)
      \/ (PyStr.contains "{" prjs = false /\
          PyStr.startswith "EPSG:" (PyStr.upper (PyStr.strip prjs)) = false /\
          e = CRSError ("crs is empty or invalid: " ++ prjs))).
Proof.
  intros H.
  assert (D : (PyStr.contains "{" prjs = true /\
       ((e = CRSError "crs appears to be JSON but is not valid" /\
         json_loads prjs = JsonDecodeError)
        \/ (e = CRSError "crs is empty JSON" /\
            exists val, json_loads prjs = JsonValue val /\
                        truthy val = false)
        \/ (e = RecursionError /\ json_loads prjs = JsonRecursionError)))
      \/ (PyStr.contains "{" prjs = false /\
          PyStr.startswith "EPSG:" (PyStr.upper (PyStr.strip prjs)) = true /\
          is_ValueError e = true)
      \/ (PyStr.contains "{" prjs = false /\
          PyStr.startswith "EPSG:" (PyStr.upper (PyStr.strip prjs)) = false /\
          e = CRSError ("crs is empty or invalid: " ++ prjs))).
  { unfold from_string in H.
    destruct (PyStr.contains "{" prjs) eqn:Hb.
    - left. split; [reflexivity |].
      destruct (json_loads prjs) as [val | |] eqn:Hj.
      + right. left. destruct (truthy val) eqn:Ht; simpl in H;
          [discriminate |].
        split; [congruence |]. now exists val.
      + left. split; [congruence | reflexivity].
      + right. right. split; [congruence | reflexivity].
    - right.
      destruct (PyStr.startswith "EPSG:" (PyStr.upper (PyStr.strip prjs)))
        eqn:Hp.
      + left. split; [reflexivity |]. split; [reflexivity |].
        destruct (second_piece_defined prjs Hp) as [code Hc].
        rewrite Hc in H.
        destruct (from_epsg (TextCode code)) as [m | e'] eqn:E;
          [discriminate |].
        injection H as <-. now apply from_epsg_Raise in E.
      + right. split; [reflexivity |]. split; [reflexivity |].
        unfold from_proj4 in H.
        destruct (CRS_of_pairs _); [congruence | discriminate]. }
  split; [| exact D].
  intros ->.
  destruct D as [[_ [[D _] | [[D _] | [D _]]]] | [[_ [_ D]] | [_ [_ D]]]];
    discriminate D.
Qed.

Lemma first_seen_NoDup (l seen : list string) :
  NoDup seen -> NoDup (seen ++ first_seen seen l).
Proof.
  revert seen. induction l as [| k l IH]; intros seen Hs; simpl.
  - now rewrite app_nil_r.
  - destruct (PyStr.mem k seen) eqn:E; [now apply IH |].
    change (k :: first_seen (seen ++ [k]) l)
      with ([k] ++ first_seen (seen ++ [k]) l)%list.
    rewrite app_assoc. apply IH.
    apply mem_false in E. apply Permutation_NoDup with (k :: seen).
    + apply Permutation_cons_append.
    + now constructor.
Qed.

Lemma In_setitem (d : crs) (k : string) (v : value) (x : string * value) :
  In x (setitem d k v) -> In x d \/ x = (k, v).
Proof.
  induction d as [| [k' v'] d IH]; simpl.
  - intros [<- | []]. now right.
  - destruct (String.eqb_spec k' k) as [-> | _]; simpl.
    + intros [<- | H]; [now right | now left; right].
    + intros [<- | H]; [now left; left |].
      destruct (IH H) as [H' | H']; [left; now right | now right].
Qed.

Lemma In_fold_setitem (l d : crs) (x : string * value) :
  In x (fold_left (fun d kv => setitem d (fst kv) (snd kv)) l d) ->
  In x d \/ In x l.
Proof.
  revert d. induction l as [| [k v] l IH]; intros d; simpl; [now left |].
  intros H. destruct (IH _ H) as [H' | H']; [| right; now right].
  destruct (In_setitem _ _ _ _ H') as [H'' | ->]; [now left |].
  right. now left.
Qed.

Lemma is_scalar_parse (v : string) : is_scalar (parse v) = true.
Proof.
  unfold parse.
  destruct (String.eqb v "True" || String.eqb v "true"); [reflexivity |].
  destruct (String.eqb v "False" || String.eqb v "false"); [reflexivity |].
  destruct (PyInt.of_string v); [reflexivity |].
  now destruct (float_of_string v).
Qed.

Lemma is_scalar_item (p : string) : is_scalar (snd (item_of_part p)) = true.
Proof.
  unfold item_of_part.
  destruct (PyStr.split_on "=" p) as [| k [| v [| w l]]]; try reflexivity.
  apply is_scalar_parse.
Qed.

(** X6.  A mapping returned by [from_string] outside the JSON branch
    is never empty, lists every key once, and holds only vocabulary
    keys with values that are booleans, integers, floats or text. *)
Theorem from_string_mapping_invariant (prjs : string) (m : crs) :
  from_string prjs = Ok (Mapping m) ->
  m <> [] /\ NoDup (keys m)
  /\ Forall (fun kv => in_vocabulary (fst kv) = true /\
                       is_scalar (snd kv) = true) m.
Proof.
  unfold from_string.
  destruct (PyStr.contains "{" prjs).
  { destruct (json_loads prjs) as [val | |]; [| discriminate ..].
    destruct (negb (truthy val)); discriminate. }
  destruct (PyStr.startswith "EPSG:" (PyStr.upper (PyStr.strip prjs))).
  { destruct (second_piece prjs) as [code |]; [| discriminate].
    destruct (from_epsg (TextCode code)) as [m' |] eqn:E; [| discriminate].
    intros [= <-]. apply from_epsg_Ok in E. subst m'.
    split; [discriminate |]. split.
    - repeat constructor; simpl; intuition discriminate.
    - repeat constructor. }
  unfold from_proj4.
  set (surv := filter (fun kv => in_vocabulary (fst kv))
                      (map item_of_part (parts prjs))).
  destruct (CRS_of_pairs surv) as [| x out] eqn:E; [discriminate |].
  intros [= <-]. rewrite <- E. split; [rewrite E; discriminate |]. split.
  - unfold CRS_of_pairs. rewrite keys_fold. simpl.
    apply (first_seen_NoDup (keys surv) []). constructor.
  - apply Forall_forall. intros kv Hin.
    unfold CRS_of_pairs in Hin. apply In_fold_setitem in Hin.
    destruct Hin as [[] | Hin]. unfold surv in Hin.
    apply filter_In in Hin. destruct Hin as [Hin Hv]. split; [exact Hv |].
    apply in_map_iff in Hin. destruct Hin as [p [<- _]].
    apply is_scalar_item.
Qed.

End EpsgPrefix.

(** ** Encode: what is left out, and the empty output *)

Lemma filter_idem {A} (f : A -> bool) (l : list A) :
  filter f (filter f l) = filter f l.
Proof.
  apply filter_all. apply Forall_forall. intros x H.
  apply filter_In in H. tauto.
Qed.

Section EncodeMore.
Context {F : FloatOps} {B : Builtins}.

Lemma render_plus (kv : string * value) : exists r, render kv = String "+" r.
Proof. unfold render. eexists. reflexivity. Qed.

(** X7.  [to_string] gives the empty string exactly when its filter
    keeps no entry, and otherwise a string that starts with [+].  The
    entries that the filter drops (a key outside the vocabulary, the
    value [False], a value that is not a scalar) leave no trace: the
    output is that of the kept entries alone. *)
Theorem to_string_empty_iff (m : crs) :
  (to_string m = EmptyString <-> filter keep_item m = [])
  /\ (to_string m <> EmptyString -> exists r, to_string m = String "+" r)
  /\ to_string (filter keep_item m) = to_string m
  /\ (forall kv, keep_item kv = false -> to_string (kv :: m) = to_string m).
Proof.
  assert (Hne : filter keep_item m <> [] ->
                exists r, to_string m = String "+" r).
  { intros H. unfold to_string.
    destruct (sorted (filter keep_item m)) as [| x l] eqn:E.
    - exfalso. apply H. apply Permutation_nil.
      rewrite <- E. apply sorted_perm.
    - cbn [map]. destruct (render_plus x) as [r ->]. apply join_head. }
  split; [| split; [| split]].
  - split.
    + intros E. destruct (filter keep_item m) eqn:Ef; [reflexivity |].
      destruct Hne as [r Hr]; [discriminate |]. congruence.
    + intros E. unfold to_string. now rewrite E.
  - intros H. apply Hne. intros E. apply H. unfold to_string. now rewrite E.
  - unfold to_string. now rewrite filter_idem.
  - intros kv H. unfold to_string. simpl. now rewrite H.
Qed.

(** ** Decode after encode, again *)

Lemma to_string_sorted (m : crs) :
  NoDup (keys m) -> to_string (sorted m) = to_string m.
Proof.
  intros Hd. rewrite !to_string_tokens. do 2 f_equal.
  apply sorted_permutation_invariant.
  - now apply keys_filter_NoDup.
  - apply Permutation_filter. symmetry. apply sorted_perm.
Qed.

(** X8.  For a mapping on which the round trip holds (not empty, keys
    in the vocabulary, values [True], integers, floats and texts that
    read back), decoding its encoding gives a mapping [m'] with the
    same encoding, and [m'] is a fixed point: decoding the encoding of
    [m'] gives [m'] itself, in the same order. *)
Theorem encode_decode_fixed_point (m : crs) :
  m <> [] -> NoDup (keys m) -> Forall ready m ->
  exists m',
    from_string (to_string m) = Ok (Mapping m')
    /\ to_string m' = to_string m
    /\ from_string (to_string m') = Ok (Mapping m')
    /\ is_epsg_code m' = is_epsg_code m.
Proof.
  intros Hne Hd Hr. exists (sorted m).
  pose proof (from_string_to_string m Hne Hd Hr) as E.
  split; [exact E |]. split; [now apply to_string_sorted |].
  split; [now rewrite to_string_sorted |].
  destruct (is_epsg_code m) eqn:Em.
  - apply is_epsg_code_exists in Em. destruct Em as [k [s [Hin Hs]]].
    apply is_epsg_code_exists. exists k, s. split; [| exact Hs].
    eapply Permutation_in; [symmetry; apply sorted_perm | exact Hin].
  - destruct (is_epsg_code (sorted m)) eqn:Es; [| reflexivity].
    apply is_epsg_code_exists in Es. destruct Es as [k [s [Hin Hs]]].
    rewrite <- Em. symmetry. apply is_epsg_code_exists. exists k, s.
    split; [| exact Hs].
    eapply Permutation_in; [apply sorted_perm | exact Hin].
Qed.

Lemma rtrim_head (c : ascii) (s : string) :
  PyInt.is_blank c = false -> exists r, PyInt.rtrim (String c s) = String c r.
Proof.
  intros H. simpl. rewrite H.
  destruct (PyInt.rtrim s); eexists; reflexivity.
Qed.

Lemma of_string_epsg (s : string) : PyInt.of_string ("epsg:" ++ s) = None.
Proof.
  unfold PyInt.of_string, PyInt.trim. cbn [append PyInt.ltrim].
  change (PyInt.is_blank "e") with false. cbv iota.
  destruct (rtrim_head "e" ("psg:" ++ s) eq_refl) as [r Hr].
  cbn [append] in Hr. rewrite Hr. reflexivity.
Qed.

(** X9.  The mapping that [from_epsg] returns for a positive integer
    survives the passage through text unchanged, order included:
    decoding its encoding gives it back.  The runtime is asked not to
    read [epsg:] followed by digits as a float. *)
Theorem from_epsg_round_trip (n : Z) :
  (0 < n)%Z ->
  float_of_string ("epsg:" ++ PyInt.to_string n) = None ->
  exists m,
    from_epsg (IntCode n) = Ok m
    /\ to_string m = "+init=epsg:" ++ PyInt.to_string n ++ " +no_defs"
    /\ from_string (to_string m) = Ok (Mapping m).
Proof.
  intros Hn Hf.
  set (m := [("init", VStr ("epsg:" ++ PyInt.to_string n));
             ("no_defs", VBool true)]).
  assert (He : from_epsg (IntCode n) = Ok m).
  { unfold from_epsg. simpl. destruct (Z.leb_spec n 0); [lia | reflexivity]. }
  exists m. split; [exact He |].
  assert (Hs : sorted m = m) by reflexivity.
  assert (Hr : Forall ready m).
  { unfold m. constructor; [| constructor; [| constructor]].
    - split; [reflexivity |]. simpl. split; [discriminate |]. split.
      + unfold token_text. cbn [append all_chars].
        change (all_chars (fun c => negb (breaks_token c)) (PyInt.to_string n))
          with (token_text (PyInt.to_string n)).
        rewrite to_string_token_text. reflexivity.
      + unfold parse. cbn [append]. simpl String.eqb. cbn [orb].
        change (String "e" (String "p" (String "s" (String "g"
                  (String ":" (PyInt.to_string n))))))
          with ("epsg:" ++ PyInt.to_string n).
        now rewrite of_string_epsg, Hf.
    - split; reflexivity. }
  assert (Hd : NoDup (keys m)).
  { unfold m. repeat constructor; simpl; intuition discriminate. }
  split.
  - rewrite to_string_tokens.
    change (filter keep_spec m) with m. rewrite Hs. reflexivity.
  - rewrite from_string_to_string; [now rewrite Hs | discriminate | | ];
      assumption.
Qed.

(** ** The scalar-typing rule on its own results *)

Lemma parse_text (v s : string) : parse v = VStr s -> s = v.
Proof.
  unfold parse.
  destruct (String.eqb v "True" || String.eqb v "true"); [discriminate |].
  destruct (String.eqb v "False" || String.eqb v "false"); [discriminate |].
  destruct (PyInt.of_string v); [discriminate |].
  destruct (float_of_string v); [discriminate |]. now intros [= <-].
Qed.

(** X10.  [parse] returns a boolean, an integer, a float or text; the
    text it returns is its argument; and when its result is not a
    float, writing the result with [str] and typing it again gives the
    same result ([true] is read as [True], printed as [True], and read
    as [True] again; [010] is read as 10, printed as [10], read as
    10). *)
Theorem parse_normal_forms (v : string) :
  is_scalar (parse v) = true
  /\ (forall s, parse v = VStr s -> s = v)
  /\ ((forall x, parse v <> VFloat x) ->
      parse (py_str (parse v)) = parse v).
Proof.
  split; [apply is_scalar_parse |]. split; [apply parse_text |].
  intros Hx. pose proof (is_scalar_parse v) as Hs.
  destruct (parse v) as [| [|] | n | x | s | |] eqn:E; try discriminate Hs.
  - reflexivity.
  - reflexivity.
  - apply parse_int_text.
  - exfalso. now apply (Hx x).
  - pose proof (parse_text _ _ E) as Hv. subst s. exact E.
Qed.

End EncodeMore.

(** ** Blanks around and between the tokens *)

Lemma split_lstrip (s : string) : PyStr.split (PyStr.lstrip s) = PyStr.split s.
Proof.
  induction s as [| a s IH]; simpl; [reflexivity |].
  destruct (PyStr.is_space a) eqn:E; [exact IH |].
  simpl. now rewrite E.
Qed.

Lemma split_cons (a : ascii) (s : string) :
  PyStr.split (String a s)
  = if PyStr.is_space a then PyStr.split s
    else if PyStr.at_break s then String a EmptyString :: PyStr.split s
    else match PyStr.split s with
         | t :: ts => String a t :: ts
         | [] => [String a EmptyString]
         end.
Proof. reflexivity. Qed.

Lemma rstrip_blank (s : string) :
  PyStr.rstrip s = EmptyString ->
  PyStr.split s = [] /\ PyStr.at_break s = true.
Proof.
  induction s as [| a s IH]; [now split |].
  rewrite rstrip_cons. destruct (PyStr.rstrip s) eqn:E; [| discriminate].
  destruct (PyStr.is_space a) eqn:Ea; [| discriminate].
  intros _. simpl. rewrite Ea. split; [| reflexivity]. now apply IH.
Qed.

Lemma at_break_rstrip (s : string) :
  PyStr.rstrip s <> EmptyString ->
  PyStr.at_break (PyStr.rstrip s) = PyStr.at_break s.
Proof.
  destruct s as [| a s]; [reflexivity |]. rewrite rstrip_cons.
  destruct (PyStr.rstrip s); [| reflexivity].
  destruct (PyStr.is_space a) eqn:Ea; [congruence |]. simpl. now rewrite Ea.
Qed.

Lemma split_rstrip (s : string) : PyStr.split (PyStr.rstrip s) = PyStr.split s.
Proof.
  induction s as [| a s IH]; [reflexivity |].
  rewrite rstrip_cons. destruct (PyStr.rstrip s) as [| b r] eqn:E.
  - destruct (rstrip_blank s E) as [Hs Hb].
    destruct (PyStr.is_space a) eqn:Ea; simpl; rewrite Ea.
    + now rewrite Hs.
    + now rewrite Hb, Hs.
  - assert (Hb : PyStr.at_break (String b r) = PyStr.at_break s).
    { rewrite <- E. apply at_break_rstrip. rewrite E. discriminate. }
    rewrite (split_cons a (String b r)), (split_cons a s).
    now rewrite Hb, IH.
Qed.

Lemma split_strip (s : string) : PyStr.split (PyStr.strip s) = PyStr.split s.
Proof. unfold PyStr.strip. now rewrite split_rstrip, split_lstrip. Qed.

Lemma lstrip_head (s : string) :
  PyStr.at_break (PyStr.lstrip s) = true -> PyStr.lstrip s = EmptyString.
Proof.
  induction s as [| a s IH]; simpl; [reflexivity |].
  destruct (PyStr.is_space a) eqn:E; [exact IH |]. simpl. congruence.
Qed.

Lemma strip_head (s : string) :
  PyStr.at_break (PyStr.strip s) = true -> PyStr.strip s = EmptyString.
Proof.
  unfold PyStr.strip. destruct (PyStr.lstrip s) as [| a u] eqn:E;
    [reflexivity |].
  assert (Ha : PyStr.is_space a = false).
  { destruct (PyStr.is_space a) eqn:Ea; [| reflexivity].
    assert (H : PyStr.at_break (PyStr.lstrip s) = true)
      by (rewrite E; exact Ea).
    apply lstrip_head in H. congruence. }
  rewrite rstrip_cons. rewrite Ha.
  destruct (PyStr.rstrip u); simpl; congruence.
Qed.

Lemma strip_join (toks : list string) :
  Forall (fun t => t <> EmptyString /\ no_space t = true) toks ->
  PyStr.strip (PyStr.join " " toks) = PyStr.join " " toks.
Proof.
  intros H. unfold PyStr.strip.
  assert (E : PyStr.lstrip (PyStr.join " " toks) = PyStr.join " " toks).
  { destruct H as [| t l [Hn Ht] _]; [reflexivity |].
    destruct t as [| c t]; [congruence |].
    destruct (join_head c t l) as [r ->]. unfold no_space in Ht.
    simpl in Ht. apply andb_true_iff in Ht. destruct Ht as [Hc _].
    apply negb_true_iff in Hc. simpl. now rewrite Hc. }
  rewrite E. now apply rstrip_join.
Qed.

Lemma space_differs (x a : ascii) :
  PyStr.is_space x = false -> PyStr.is_space a = true ->
  Ascii.eqb x a = false /\ Ascii.eqb a x = false.
Proof.
  intros Hx Ha. split; apply Ascii.eqb_neq; congruence.
Qed.

Lemma contains_split (c : ascii) (s : string) :
  PyStr.is_space c = false ->
  PyStr.contains c s = existsb (PyStr.contains c) (PyStr.split s).
Proof.
  intros Hc. induction s as [| a s IH]; simpl; [reflexivity |].
  destruct (PyStr.is_space a) eqn:Ea.
  - destruct (space_differs c a Hc Ea) as [_ ->]. exact IH.
  - destruct (PyStr.at_break s).
    + simpl. now rewrite IH, orb_false_r.
    + rewrite IH. destruct (PyStr.split s) as [| t ts]; simpl.
      * now rewrite !orb_false_r.
      * now rewrite orb_assoc.
Qed.

Lemma contains_join_tokens (c : ascii) (toks : list string) :
  PyStr.is_space c = false ->
  PyStr.contains c (PyStr.join " " toks) = existsb (PyStr.contains c) toks.
Proof.
  intros Hc. induction toks as [| t l IH]; [reflexivity |].
  destruct l as [| u l]; [simpl; now rewrite orb_false_r |].
  rewrite join_cons2, contains_app, contains_app, IH.
  destruct (space_differs c " " Hc eq_refl) as [_ H].
  cbn [PyStr.contains existsb]. rewrite H. reflexivity.
Qed.

Lemma upper_space (a : ascii) :
  PyStr.is_space a = true -> PyStr.upper_char a = a.
Proof.
  destruct a as [[] [] [] [] [] [] [] []]; try discriminate; reflexivity.
Qed.

(** A prefix without blanks is looked for in the first token only. *)
Lemma startswith_first_token (p u : string) :
  no_space p = true ->
  PyStr.startswith p (PyStr.upper u)
  = PyStr.startswith p
      (PyStr.upper (if PyStr.at_break u then EmptyString
                    else hd EmptyString (PyStr.split u))).
Proof.
  revert p. induction u as [| a r IH]; intros p Hp; [reflexivity |].
  cbn [PyStr.at_break]. destruct (PyStr.is_space a) eqn:Ea.
  - destruct p as [| x p]; [reflexivity |]. simpl.
    unfold no_space in Hp. simpl in Hp. apply andb_true_iff in Hp.
    destruct Hp as [Hx _]. apply negb_true_iff in Hx.
    rewrite (upper_space a Ea).
    now destruct (space_differs x a Hx Ea) as [-> _].
  - assert (E : hd EmptyString (PyStr.split (String a r))
                = String a (if PyStr.at_break r then EmptyString
                            else hd EmptyString (PyStr.split r))).
    { simpl. rewrite Ea. destruct (PyStr.at_break r); [reflexivity |].
      now destruct (PyStr.split r). }
    rewrite E. destruct p as [| x p]; [reflexivity |].
    cbn [PyStr.upper PyStr.startswith]. rewrite IH; [reflexivity |].
    unfold no_space in *. simpl in Hp. apply andb_true_iff in Hp. tauto.
Qed.

Lemma prefix_first_token (p s : string) :
  no_space p = true ->
  PyStr.startswith p (PyStr.upper (PyStr.strip s))
  = PyStr.startswith p (PyStr.upper (hd EmptyString (PyStr.split s))).
Proof.
  intros Hp. rewrite (startswith_first_token p _ Hp), split_strip.
  destruct (PyStr.at_break (PyStr.strip s)) eqn:E; [| reflexivity].
  apply strip_head in E. rewrite <- (split_strip s), E. reflexivity.
Qed.

Section Blanks.
Context {F : FloatOps} {B : Builtins}.

(** X11.  On the PROJ.4 branch decode depends on the tokens only: the
    input with its tokens joined by single spaces, no blank before and
    after, has the same tokens and decodes to the same mapping.  (When
    nothing is kept, both raise the error of an empty or invalid
    input, each with its own input in the message.) *)
Theorem from_string_blanks (prjs : string) :
  PyStr.contains "{" prjs = false ->
  PyStr.startswith "EPSG:" (PyStr.upper (PyStr.strip prjs)) = false ->
  parts (PyStr.join " " (PyStr.split prjs)) = parts prjs
  /\ (forall m, from_string prjs = Ok (Mapping m) <->
                from_string (PyStr.join " " (PyStr.split prjs))
                = Ok (Mapping m))
  /\ (forall e, from_string prjs = Raise e ->
        from_string (PyStr.join " " (PyStr.split prjs))
        = Raise (CRSError ("crs is empty or invalid: "
                           ++ PyStr.join " " (PyStr.split prjs)))).
Proof.
  intros H1 H2. set (J := PyStr.join " " (PyStr.split prjs)).
  pose proof (split_tokens prjs) as Ht.
  assert (Hs : PyStr.split J = PyStr.split prjs) by now apply split_join.
  assert (Hp : parts J = parts prjs).
  { unfold parts. now rewrite !split_strip, Hs. }
  assert (J1 : PyStr.contains "{" J = false).
  { unfold J. rewrite contains_join_tokens by reflexivity.
    rewrite <- contains_split by reflexivity. exact H1. }
  assert (J2 : PyStr.startswith "EPSG:" (PyStr.upper (PyStr.strip J)) = false).
  { rewrite prefix_first_token in H2 |- * by reflexivity.
    now rewrite Hs. }
  rewrite (from_string_proj4 _ H1 H2), (from_string_proj4 _ J1 J2).
  unfold from_proj4. rewrite Hp.
  split; [reflexivity |].
  destruct (CRS_of_pairs _) as [| x out]; split.
  - intros m. split; discriminate.
  - reflexivity.
  - reflexivity.
  - discriminate.
Qed.

End Blanks.

(** ** The further properties at concrete inputs *)

Lemma is_epsg_code_values_witness :
  (exists k s,
      In (k, VStr s)
         [("init", VStr (F := Ref.float_ops) "EPSG:4326");
          ("no_defs", VBool true)]
      /\ PyStr.startswith "epsg" (PyStr.lower s) = true)
  /\ is_epsg_code (F := Ref.float_ops)
       [("init", VStr "EPSG:4326"); ("no_defs", VBool true)] = true.
Proof.
  assert (H : exists k s,
             In (k, VStr s)
                [("init", VStr (F := Ref.float_ops) "EPSG:4326");
                 ("no_defs", VBool true)]
             /\ PyStr.startswith "epsg" (PyStr.lower s) = true).
  { exists "init", "EPSG:4326". split; [left; reflexivity | reflexivity]. }
  split; [exact H |].
  exact (proj2 (proj1 (is_epsg_code_values _)) H).
Defined.

Lemma from_epsg_is_epsg_code_witness :
  from_epsg (F := Ref.float_ops) (IntCode 4326)
  = Ok [("init", VStr "epsg:4326"); ("no_defs", VBool true)]
  /\ is_epsg_code (F := Ref.float_ops)
       [("init", VStr "epsg:4326"); ("no_defs", VBool true)] = true
  /\ PyStr.contains "{" " Epsg:27700" = false
  /\ PyStr.startswith "EPSG:" (PyStr.upper (PyStr.strip " Epsg:27700")) = true
  /\ from_string (B := Ref.builtins) " Epsg:27700"
     = Ok (Mapping [("init", VStr "epsg:27700"); ("no_defs", VBool true)])
  /\ is_epsg_code (F := Ref.float_ops)
       [("init", VStr "epsg:27700"); ("no_defs", VBool true)] = true.
Proof.
  split; [reflexivity |].
  split;
    [exact (proj1 (from_epsg_is_epsg_code (B := Ref.builtins))
              (IntCode 4326) _ eq_refl) |].
  split; [reflexivity |]. split; [reflexivity |]. split; [reflexivity |].
  exact (proj2 (from_epsg_is_epsg_code (B := Ref.builtins))
           " Epsg:27700" _ eq_refl eq_refl eq_refl).
Defined.

Lemma to_string_from_epsg_witness :
  from_epsg (F := Ref.float_ops) (TextCode "3005")
  = Ok [("init", VStr "epsg:3005"); ("no_defs", VBool true)]
  /\ to_string (B := Ref.builtins)
       [("init", VStr "epsg:3005"); ("no_defs", VBool true)]
     = "+init=epsg:3005 +no_defs".
Proof.
  split; [reflexivity |].
  exact (to_string_from_epsg (B := Ref.builtins) (TextCode "3005") _ eq_refl).
Defined.

Lemma from_string_epsg_any_case_witness :
  PyStr.upper "ePsG:" = "EPSG:" /\ (0 < 3005)%Z
  /\ from_string (B := Ref.builtins) "ePsG:3005"
     = Ok (Mapping [("init", VStr "epsg:3005"); ("no_defs", VBool true)]).
Proof.
  split; [reflexivity |]. split; [reflexivity |].
  exact (proj1 (from_string_epsg_any_case (B := Ref.builtins)
                  "ePsG:" 3005 eq_refl eq_refl)).
Defined.

Lemma from_string_raises_witness :
  from_string (B := Ref.builtins) "+bogus=1"
  = Raise (CRSError "crs is empty or invalid: +bogus=1")
  /\ CRSError "crs is empty or invalid: +bogus=1" <> IndexError
  /\ PyStr.contains "{" "+bogus=1" = false
  /\ from_string (B := Ref.builtins) deep_example = Raise RecursionError
  /\ RecursionError <> IndexError.
Proof.
  split; [reflexivity |].
  destruct (from_string_raises (B := Ref.builtins) "+bogus=1" _ eq_refl)
    as [H _].
  split; [exact H |]. split; [reflexivity |]. split; [reflexivity |].
  exact (proj1 (from_string_raises (B := Ref.builtins) deep_example _
                  eq_refl)).
Defined.

Lemma from_string_mapping_invariant_witness :
  from_string (B := Ref.builtins) "+proj=utm +zone=10 +bogus +zone=11"
  = Ok (Mapping [("proj", VStr "utm"); ("zone", VInt 11)])
  /\ NoDup (keys (F := Ref.float_ops)
              [("proj", VStr "utm"); ("zone", VInt 11)]).
Proof.
  split; [reflexivity |].
  exact (proj1 (proj2 (from_string_mapping_invariant (B := Ref.builtins)
                         "+proj=utm +zone=10 +bogus +zone=11" _ eq_refl))).
Defined.

Lemma to_string_empty_iff_witness :
  filter (keep_item (F := Ref.float_ops))
    [("bogus", VInt 1); ("south", VBool false); ("units", VNone)] = []
  /\ to_string (B := Ref.builtins)
       [("bogus", VInt 1); ("south", VBool false); ("units", VNone)]
     = EmptyString.
Proof.
  assert (H : filter (keep_item (F := Ref.float_ops))
                [("bogus", VInt 1); ("south", VBool false); ("units", VNone)]
              = []) by reflexivity.
  split; [exact H |].
  exact (proj2 (proj1 (to_string_empty_iff (B := Ref.builtins) _)) H).
Defined.

Lemma encode_decode_fixed_point_witness :
  utm_example <> []
  /\ NoDup (keys utm_example)
  /\ Forall ready utm_example
  /\ exists m',
       from_string (B := Ref.builtins) (to_string utm_example)
       = Ok (Mapping m')
       /\ to_string m' = to_string utm_example
       /\ from_string (B := Ref.builtins) (to_string m') = Ok (Mapping m')
       /\ is_epsg_code m' = is_epsg_code utm_example.
Proof.
  assert (H1 : utm_example <> []) by discriminate.
  assert (H2 : NoDup (keys utm_example)).
  { assert (E : nodup string_dec (keys utm_example) = keys utm_example)
      by reflexivity.
    rewrite <- E. apply NoDup_nodup. }
  assert (H3 : Forall ready utm_example).
  { unfold utm_example.
    repeat (apply Forall_cons; [split; [reflexivity |] |]);
      try apply Forall_nil.
    - exact I.
    - split; [discriminate | split; reflexivity].
    - reflexivity.
    - split; [discriminate | split; reflexivity].
    - exact I.
    - split; [reflexivity | split; reflexivity]. }
  split; [exact H1 |]. split; [exact H2 |]. split; [exact H3 |].
  exact (encode_decode_fixed_point (B := Ref.builtins) utm_example H1 H2 H3).
Defined.

Lemma from_epsg_round_trip_witness :
  (0 < 4326)%Z
  /\ float_of_string (FloatOps := Ref.float_ops) "epsg:4326" = None
  /\ exists m,
       from_epsg (F := Ref.float_ops) (IntCode 4326) = Ok m
       /\ to_string (B := Ref.builtins) m = "+init=epsg:4326 +no_defs"
       /\ from_string (B := Ref.builtins) (to_string m) = Ok (Mapping m).
Proof.
  split; [reflexivity |]. split; [reflexivity |].
  exact (from_epsg_round_trip (B := Ref.builtins) 4326 eq_refl eq_refl).
Defined.

Lemma parse_normal_forms_witness :
  parse (F := Ref.float_ops) "010" = VInt 10
  /\ (forall x, parse (F := Ref.float_ops) "010" <> VFloat x)
  /\ py_str (B := Ref.builtins) (parse "010") = "10"
  /\ parse (py_str (B := Ref.builtins) (parse "010")) = parse "010".
Proof.
  assert (H : forall x, parse (F := Ref.float_ops) "010" <> VFloat x).
  { intros x Hx. change (VInt 10 = VFloat x) in Hx. discriminate Hx. }
  split; [reflexivity |]. split; [exact H |]. split; [reflexivity |].
  exact (proj2 (proj2 (parse_normal_forms (B := Ref.builtins) "010")) H).
Defined.

Lemma from_string_blanks_witness :
  PyStr.contains "{" "  +proj=utm   +zone=10 " = false
  /\ PyStr.startswith "EPSG:"
       (PyStr.upper (PyStr.strip "  +proj=utm   +zone=10 ")) = false
  /\ PyStr.join " " (PyStr.split "  +proj=utm   +zone=10 ")
     = "+proj=utm +zone=10"
  /\ from_string (B := Ref.builtins) "  +proj=utm   +zone=10 "
     = Ok (Mapping [("proj", VStr "utm"); ("zone", VInt 10)])
  /\ from_string (B := Ref.builtins) "+proj=utm +zone=10"
     = Ok (Mapping [("proj", VStr "utm"); ("zone", VInt 10)]).
Proof.
  split; [reflexivity |]. split; [reflexivity |]. split; [reflexivity |].
  split; [reflexivity |].
  exact (proj1 (proj1 (proj2 (from_string_blanks (B := Ref.builtins)
                                "  +proj=utm   +zone=10 " eq_refl eq_refl))
                  _) eq_refl).
Defined.
